(** * Verification of the Quansheng dock screen mirror

    A shallow embedding of [radio_screen_dump_gui17.py]: the outbound
    command-frame encoder ([crypt], [crc16_byte], [send_command]), the
    inbound byte-wise parser ([Parser.feed]) and the packet interpreter
    of [main] ([process_events] with its helper closures).

    Python integers are modelled as [Z]; a [bytes] or [bytearray] value
    is a [list Z] whose elements lie in [0, 256); a raised exception is
    an explicit [Raise] result. *)

From Stdlib Require Import ZArith List Lia PrimFloat Uint63 Ascii String Sorted.
From stdpp Require Import gmap strings list pretty.
From Equations Require Import Equations.

Open Scope Z_scope.

(* 0.04, 8.4 and 2.1 stand for the nearest binary64 values, as in Python. *)
Set Warnings "-inexact-float".

(** ** Python values shared by all components *)

Definition is_byte (b : Z) : Prop := 0 <= b < 256.

Inductive exn : Type :=
| OverflowError
| ValueError.

Inductive pyresult (A : Type) : Type :=
| Ok (a : A)
| Raise (e : exn).
Arguments Ok {A} a.
Arguments Raise {A} e.

Definition pybind {A B : Type} (m : pyresult A) (k : A -> pyresult B) : pyresult B :=
  match m with
  | Ok a => k a
  | Raise e => Raise e
  end.

Notation "'let!' x ':=' m 'in' k" := (pybind m (fun x => k))
  (at level 10, x name, m at level 100, k at level 200).

(** [int.to_bytes(2, "little")]: raises [OverflowError] outside [0, 65536). *)
Definition to_bytes2_little (n : Z) : pyresult (list Z) :=
  if (0 <=? n) && (n <? 65536)
  then Ok [Z.land n 255; Z.land (Z.shiftr n 8) 255]
  else Raise OverflowError.

(** The element check of [bytearray.append]: [ValueError] outside [range(256)]. *)
Definition bytearray_item (x : Z) : pyresult Z :=
  if (0 <=? x) && (x <? 256) then Ok x else Raise ValueError.

(** ** Low-level encode / send *)

Module CipherFrame.

Definition PKT_KEYPRESS : Z := 0x0801.
Definition PKT_GETSCREEN : Z := 0x0803.

Definition XOR_ARRAY : list Z :=
  [0x16; 0x6c; 0x14; 0xe6; 0x2e; 0x91; 0x0d; 0x40;
   0x21; 0x35; 0xd5; 0x40; 0x13; 0x03; 0xe9; 0x80].

(** [XOR_ARRAY[i & 0x0F]]: the index is always inside the table. *)
Definition crypt (b i : Z) : Z :=
  Z.lxor b (nth (Z.to_nat (Z.land i 0x0F)) XOR_ARRAY 0).

(** One pass of the loop body of [crc16_byte]. *)
Definition crc16_shift (crc : Z) : Z :=
  let crc := Z.shiftl crc 1 in
  if 0xFFFF <? crc then Z.land (Z.lxor crc 0x1021) 0xFFFF else crc.

Definition crc16_byte (byt crc : Z) : Z :=
  Nat.iter 8 crc16_shift (Z.lxor crc (Z.shiftl byt 8)).

(** [for bb in plain: crc = crc16_byte(bb, crc)], started from [crc]. *)
Definition crc16_plain (plain : list Z) (crc : Z) : Z :=
  fold_left (fun crc bb => crc16_byte bb crc) plain crc.

(** [for i, bb in enumerate(plain): enc.append(crypt(bb, i))], the
    enumeration counter starting at [i]; the result lists the bytes
    appended to [enc], in order. *)
Fixpoint encrypt_from (i : Z) (plain : list Z) : pyresult (list Z) :=
  match plain with
  | [] => Ok []
  | bb :: rest =>
      let! x := bytearray_item (crypt bb i) in
      let! enc := encrypt_from (i + 1) rest in
      Ok (x :: enc)
  end.

(** The serial port, as far as the encoder sees it: the bytes written. *)
Record Serial : Type := { written : list Z }.

Definition ser_write (ser : Serial) (frame : list Z) : Serial :=
  {| written := written ser ++ frame |}.

Definition send_command (ser : Serial) (cmd : Z) (payload : list Z) : pyresult Serial :=
  let prm_len := Z.of_nat (length payload) in
  let! cmd_b := to_bytes2_little cmd in
  let! len_b := to_bytes2_little prm_len in
  let plain := cmd_b ++ len_b ++ payload in
  let crc := crc16_plain plain 0 in
  let! enc := encrypt_from 0 plain in
  let xor_i := Z.of_nat (length plain) in
  let! c_lo := bytearray_item (crypt (Z.land crc 0xFF) xor_i) in
  let xor_i := xor_i + 1 in
  let! c_hi := bytearray_item (crypt (Z.land (Z.shiftr crc 8) 0xFF) xor_i) in
  let enc := enc ++ [c_lo] ++ [c_hi] in
  let enc_len_field := 4 + prm_len in
  let! lf := to_bytes2_little enc_len_field in
  let frame := [0xAB; 0xCD] ++ lf ++ enc ++ [0xDC; 0xBA] in
  Ok (ser_write ser frame).

Definition send_keypress (ser : Serial) (keycode : Z) : pyresult Serial :=
  let! kc := to_bytes2_little keycode in
  send_command ser PKT_KEYPRESS kc.

(** *** The frame as the specification words it *)

(** A 16-bit value as two bytes, low byte first. *)
Definition le16 (n : Z) : list Z := [n mod 256; n / 256].

(** The plaintext record: command, payload length, payload. *)
Definition plain_record (c : Z) (p : list Z) : list Z :=
  le16 c ++ le16 (Z.of_nat (length p)) ++ p.

(** [E[i] = S[i] XOR key[i mod 16]]. *)
Definition xor_with_key (S : list Z) : list Z :=
  imap (fun i s => Z.lxor s (nth (i mod 16)%nat XOR_ARRAY 0)) S.

Definition wire_frame (c : Z) (p : list Z) : list Z :=
  let crc := crc16_plain (plain_record c p) 0 in
  [0xAB; 0xCD] ++ le16 (4 + Z.of_nat (length p))
    ++ xor_with_key (plain_record c p ++ le16 crc)
    ++ [0xDC; 0xBA].

End CipherFrame.

(** ** UI packet parser (0xB5...) *)

Module StreamParser.

(** The stage constants of [Parser], [range(9)] and [range(9, 15)]. *)
Inductive Stage : Type :=
| IDLE | CD | LEN_LSB | LEN_MSB | DATA | CRC_LSB | CRC_MSB | DC | BA
| UI_TYPE | UI_V1 | UI_V2 | UI_V3 | UI_LEN | UI_DATA.

Record Parser : Type := {
  stage : Stage;
  p_len : Z;
  p_cnt : Z;
  ui_type : Z;
  v1 : Z;
  v2 : Z;
  v3 : Z;
  ui_len : Z;
  ui_buf : list Z;
  ui_need : Z
}.

(** The arguments of one [on_ui_packet] call. *)
Record RawUiPacket : Type := {
  kind : Z;
  pkt_v1 : Z;
  pkt_v2 : Z;
  pkt_v3 : Z;
  declaredLen : Z;
  data : list Z
}.

(** [Parser.__init__]. *)
Definition Parser_init : Parser :=
  {| stage := IDLE; p_len := 0; p_cnt := 0; ui_type := 0;
     v1 := 0; v2 := 0; v3 := 0; ui_len := 0; ui_buf := []; ui_need := 0 |}.

Definition set_stage (s : Stage) (self : Parser) : Parser :=
  {| stage := s; p_len := p_len self; p_cnt := p_cnt self;
     ui_type := ui_type self; v1 := v1 self; v2 := v2 self; v3 := v3 self;
     ui_len := ui_len self; ui_buf := ui_buf self; ui_need := ui_need self |}.

Definition set_p_len (n : Z) (self : Parser) : Parser :=
  {| stage := stage self; p_len := n; p_cnt := p_cnt self;
     ui_type := ui_type self; v1 := v1 self; v2 := v2 self; v3 := v3 self;
     ui_len := ui_len self; ui_buf := ui_buf self; ui_need := ui_need self |}.

Definition set_p_cnt (n : Z) (self : Parser) : Parser :=
  {| stage := stage self; p_len := p_len self; p_cnt := n;
     ui_type := ui_type self; v1 := v1 self; v2 := v2 self; v3 := v3 self;
     ui_len := ui_len self; ui_buf := ui_buf self; ui_need := ui_need self |}.

Definition set_ui_type (b : Z) (self : Parser) : Parser :=
  {| stage := stage self; p_len := p_len self; p_cnt := p_cnt self;
     ui_type := b; v1 := v1 self; v2 := v2 self; v3 := v3 self;
     ui_len := ui_len self; ui_buf := ui_buf self; ui_need := ui_need self |}.

Definition set_v1 (b : Z) (self : Parser) : Parser :=
  {| stage := stage self; p_len := p_len self; p_cnt := p_cnt self;
     ui_type := ui_type self; v1 := b; v2 := v2 self; v3 := v3 self;
     ui_len := ui_len self; ui_buf := ui_buf self; ui_need := ui_need self |}.

Definition set_v2 (b : Z) (self : Parser) : Parser :=
  {| stage := stage self; p_len := p_len self; p_cnt := p_cnt self;
     ui_type := ui_type self; v1 := v1 self; v2 := b; v3 := v3 self;
     ui_len := ui_len self; ui_buf := ui_buf self; ui_need := ui_need self |}.

Definition set_v3 (b : Z) (self : Parser) : Parser :=
  {| stage := stage self; p_len := p_len self; p_cnt := p_cnt self;
     ui_type := ui_type self; v1 := v1 self; v2 := v2 self; v3 := b;
     ui_len := ui_len self; ui_buf := ui_buf self; ui_need := ui_need self |}.

(** The three assignments that open the [UI_LEN] branch. *)
Definition set_ui_len_need (b need : Z) (self : Parser) : Parser :=
  {| stage := stage self; p_len := p_len self; p_cnt := p_cnt self;
     ui_type := ui_type self; v1 := v1 self; v2 := v2 self; v3 := v3 self;
     ui_len := b; ui_buf := []; ui_need := need |}.

Definition set_ui_buf (buf : list Z) (self : Parser) : Parser :=
  {| stage := stage self; p_len := p_len self; p_cnt := p_cnt self;
     ui_type := ui_type self; v1 := v1 self; v2 := v2 self; v3 := v3 self;
     ui_len := ui_len self; ui_buf := buf; ui_need := ui_need self |}.

(** The packet handed to [on_ui_packet] from the parser's fields. *)
Definition packet_of (self : Parser) (d : list Z) : RawUiPacket :=
  {| kind := ui_type self; pkt_v1 := v1 self; pkt_v2 := v2 self;
     pkt_v3 := v3 self; declaredLen := ui_len self; data := d |}.

(** [Parser.feed]: the parser after the byte, and the packet passed to
    [on_ui_packet] if the callback was called. *)
Definition feed (self : Parser) (b : Z) : Parser * option RawUiPacket :=
  match stage self with
  | IDLE =>
      if b =? 0xAB then (set_stage CD self, None)
      else if b =? 0xB5 then (set_stage UI_TYPE self, None)
      else (self, None)
  | CD => (set_stage (if b =? 0xCD then LEN_LSB else IDLE) self, None)
  | LEN_LSB => (set_stage LEN_MSB (set_p_len b self), None)
  | LEN_MSB =>
      let self := set_p_len (Z.lor (p_len self) (Z.shiftl b 8)) self in
      let self := set_p_cnt 0 self in
      (set_stage DATA self, None)
  | DATA =>
      let self := set_p_cnt (p_cnt self + 1) self in
      if p_len self <=? p_cnt self
      then (set_stage CRC_LSB self, None)
      else (self, None)
  | CRC_LSB => (set_stage CRC_MSB self, None)
  | CRC_MSB => (set_stage DC self, None)
  | DC => (set_stage (if b =? 0xDC then BA else IDLE) self, None)
  | BA => (set_stage IDLE self, None)
  | UI_TYPE => (set_stage UI_V1 (set_ui_type b self), None)
  | UI_V1 => (set_stage UI_V2 (set_v1 b self), None)
  | UI_V2 => (set_stage UI_V3 (set_v2 b self), None)
  | UI_V3 => (set_stage UI_LEN (set_v3 b self), None)
  | UI_LEN =>
      let self :=
        set_ui_len_need b (if ui_type self =? 6 then 0 else b) self in
      if ui_need self =? 0
      then (set_stage IDLE self, Some (packet_of self []))
      else (set_stage UI_DATA self, None)
  | UI_DATA =>
      let self := set_ui_buf (ui_buf self ++ [b]) self in
      if ui_need self <=? Z.of_nat (length (ui_buf self))
      then (set_stage IDLE self, Some (packet_of self (ui_buf self)))
      else (self, None)
  end.

(** The parser together with the queue its callback fills
    ([q_events.put] in [on_ui_packet]). *)
Definition Reader : Type := Parser * list RawUiPacket.

Definition Reader_init : Reader := (Parser_init, []).

Definition feed_byte (r : Reader) (b : Z) : Reader :=
  let '(self, q) := r in
  let '(self', out) := feed self b in
  (self', q ++ match out with Some pk => [pk] | None => [] end).

(** The body of [reader_thread] for one chunk returned by [ser.read]:
    [for b in chunk: parser.feed(b)]. *)
Definition feed_chunk (r : Reader) (chunk : list Z) : Reader :=
  fold_left feed_byte chunk r.

(** The chunks of successive [ser.read] calls. *)
Definition feed_chunks (r : Reader) (chunks : list (list Z)) : Reader :=
  fold_left feed_chunk chunks r.

(** The stages the parser goes through, one per byte fed. *)
Fixpoint stages (self : Parser) (bytes : list Z) : list Stage :=
  match bytes with
  | [] => []
  | b :: rest => stage (fst (feed self b)) :: stages (fst (feed self b)) rest
  end.

(** The wire form of a UI packet: sync byte, header, data bytes. *)
Definition ui_packet_bytes (pk : RawUiPacket) : list Z :=
  [0xB5; kind pk; pkt_v1 pk; pkt_v2 pk; pkt_v3 pk; declaredLen pk] ++ data pk.

(** A prefix after which a fresh parser is back in [IDLE] and has
    called [on_ui_packet] for nothing. *)
Definition quiet_prefix (prefix : list Z) : Prop :=
  stage (fst (feed_chunk Reader_init prefix)) = IDLE
  /\ snd (feed_chunk Reader_init prefix) = [].

(** A UI packet carries as many data bytes as the parser will wait
    for: none when its kind is 6, [declaredLen] otherwise. *)
Definition well_formed (pk : RawUiPacket) : Prop :=
  Z.of_nat (length (data pk)) = (if kind pk =? 6 then 0 else declaredLen pk).

(** What holds of the parser between two bytes of a byte stream: the
    header fields and the buffered bytes are bytes, at most 255 bytes
    are buffered, and in [UI_DATA] the parser still waits for at least
    one of the [ui_len] bytes of a packet whose kind is not 6. *)
Definition parser_inv (self : Parser) : Prop :=
  is_byte (ui_type self) /\ is_byte (v1 self) /\ is_byte (v2 self)
  /\ is_byte (v3 self) /\ is_byte (ui_len self)
  /\ Forall is_byte (ui_buf self)
  /\ (length (ui_buf self) <= 255)%nat
  /\ (stage self = UI_DATA ->
      ui_type self <> 6
      /\ ui_need self = ui_len self
      /\ Z.of_nat (length (ui_buf self)) < ui_need self).

(** A packet made of bytes only, with the data length its header asks for. *)
Definition byte_packet (pk : RawUiPacket) : Prop :=
  well_formed pk
  /\ is_byte (kind pk) /\ is_byte (pkt_v1 pk) /\ is_byte (pkt_v2 pk)
  /\ is_byte (pkt_v3 pk) /\ is_byte (declaredLen pk)
  /\ Forall is_byte (data pk).

(** The bytes of the UI packet in flight that the parser has consumed. *)
Definition consumed (s : Stage) : nat :=
  match s with
  | UI_TYPE => 1
  | UI_V1 => 2
  | UI_V2 => 3
  | UI_V3 => 4
  | UI_LEN => 5
  | UI_DATA => 6
  | _ => 0
  end.

(** Bytes among which neither sync byte occurs. *)
Definition no_sync (noise : list Z) : Prop :=
  Forall (fun b => b <> 0xAB /\ b <> 0xB5) noise.

End StreamParser.

(** ** UI helpers and screen processing *)

Module ScreenModel.

(** A Python [str] is held as the [string] of its UTF-8 bytes.  The
    texts built here contain ASCII characters and U+FFFD only; the
    UTF-8 bytes of U+FFFD are all above 0x7F, so membership of ["."]
    and [isdigit] can be read off the bytes. *)

(** [while x > 128: row += 1; x -= 128]. *)
Equations? unpack_loop (x row : Z) : Z * Z by wf (Z.to_nat (x - 128)) lt :=
  unpack_loop x row with Z_lt_dec 128 x := {
    | left _ := unpack_loop (x - 128) (row + 1);
    | right _ := (x, row) }.
Proof. lia. Qed.

Definition ui_unpack_xy (v1 v2 : Z) : Z * Z := unpack_loop v1 v2.

(** The conversion of an [int] operand in mixed [int]/[float]
    arithmetic; exact below [2^53]. *)
Definition float_of_int (z : Z) : float :=
  match z with
  | Z0 => PrimFloat.of_uint63 0
  | Zpos _ => PrimFloat.of_uint63 (Uint63.of_Z z)
  | Zneg _ => PrimFloat.opp (PrimFloat.of_uint63 (Uint63.of_Z (- z)))
  end.

(** The two-argument [min] builtin: the second argument only when it
    is strictly smaller. *)
Definition py_min (a b : float) : float :=
  if PrimFloat.ltb b a then b else a.

Definition decode_battery (lenb : Z) : float * float :=
  let volts := py_min (PrimFloat.mul (float_of_int lenb) 0.04%float) 8.4%float in
  let pct := PrimFloat.div (float_of_int lenb) 2.1%float in
  (volts, pct).

Definition isdigit (c : ascii) : bool :=
  (48 <=? Z.of_N (N_of_ascii c)) && (Z.of_N (N_of_ascii c) <=? 57).

Definition looks_like_freq (s : string) : bool :=
  existsb (Ascii.eqb ".") (list_ascii_of_string s)
  && existsb isdigit (list_ascii_of_string s).

(** [data.decode("ascii", errors="replace")]: every byte above 0x7F
    becomes U+FFFD. *)
Definition decode_ascii_replace (data : list Z) : string :=
  String.concat ""
    (map (fun b => if b <? 128
                   then String (ascii_of_N (Z.to_N b)) EmptyString
                   else "�"%string) data).

Record DrawTextCmd : Type := {
  x : Z;
  row : Z;
  scale : float;
  text : string
}.

(** What [view.set_status] was last given.  The status line of a STATUS
    packet is kept as the values its format string interpolates. *)
Inductive Status : Type :=
| Waiting
| ReaderError (msg : string)
| StatusLine (which : string) (flags1 flags2 : Z) (volts pct : float)
             (keydown : Z).

(** One item of [q_events]: the reader's error tuple or a UI packet. *)
Inductive Event : Type :=
| EvErr (msg : string)
| EvPacket (ui_t v1 v2 v3 lenb : Z) (data : list Z).

(** The variables of [main] that [process_events] and its helper
    closures read and write.  [cursor_rows] is a [dict] whose iteration
    order [derive_vfo_from_cursors] depends on, so it is an association
    list in insertion order; [stdout] lists the printed lines. *)
Record Model : Type := {
  buffer : gmap string DrawTextCmd;
  status_var : Status;
  vfo_state : string;
  cursor_rows : list (Z * Z);
  last_cursor_row : option Z;
  last_freq_by_row : gmap Z string;
  keydown_ms : Z;
  stdout : list string
}.

Definition Model_init (keydown : Z) : Model :=
  {| buffer := ∅; status_var := Waiting; vfo_state := "?";
     cursor_rows := []; last_cursor_row := None; last_freq_by_row := ∅;
     keydown_ms := keydown; stdout := [] |}.

Definition set_buffer (b : gmap string DrawTextCmd) (m : Model) : Model :=
  {| buffer := b; status_var := status_var m; vfo_state := vfo_state m;
     cursor_rows := cursor_rows m; last_cursor_row := last_cursor_row m;
     last_freq_by_row := last_freq_by_row m; keydown_ms := keydown_ms m;
     stdout := stdout m |}.

Definition set_status (st : Status) (m : Model) : Model :=
  {| buffer := buffer m; status_var := st; vfo_state := vfo_state m;
     cursor_rows := cursor_rows m; last_cursor_row := last_cursor_row m;
     last_freq_by_row := last_freq_by_row m; keydown_ms := keydown_ms m;
     stdout := stdout m |}.

Definition set_vfo_state (w : string) (m : Model) : Model :=
  {| buffer := buffer m; status_var := status_var m; vfo_state := w;
     cursor_rows := cursor_rows m; last_cursor_row := last_cursor_row m;
     last_freq_by_row := last_freq_by_row m; keydown_ms := keydown_ms m;
     stdout := stdout m |}.

Definition set_cursor_rows (d : list (Z * Z)) (m : Model) : Model :=
  {| buffer := buffer m; status_var := status_var m; vfo_state := vfo_state m;
     cursor_rows := d; last_cursor_row := last_cursor_row m;
     last_freq_by_row := last_freq_by_row m; keydown_ms := keydown_ms m;
     stdout := stdout m |}.

Definition set_last_cursor_row (r : option Z) (m : Model) : Model :=
  {| buffer := buffer m; status_var := status_var m; vfo_state := vfo_state m;
     cursor_rows := cursor_rows m; last_cursor_row := r;
     last_freq_by_row := last_freq_by_row m; keydown_ms := keydown_ms m;
     stdout := stdout m |}.

Definition set_last_freq_by_row (f : gmap Z string) (m : Model) : Model :=
  {| buffer := buffer m; status_var := status_var m; vfo_state := vfo_state m;
     cursor_rows := cursor_rows m; last_cursor_row := last_cursor_row m;
     last_freq_by_row := f; keydown_ms := keydown_ms m;
     stdout := stdout m |}.

Definition print (line : string) (m : Model) : Model :=
  {| buffer := buffer m; status_var := status_var m; vfo_state := vfo_state m;
     cursor_rows := cursor_rows m; last_cursor_row := last_cursor_row m;
     last_freq_by_row := last_freq_by_row m; keydown_ms := keydown_ms m;
     stdout := stdout m ++ [line] |}.

(** [d[k] = v] on an insertion-ordered [dict]: a present key keeps its
    place, a new key goes last. *)
Fixpoint dict_set (d : list (Z * Z)) (k v : Z) : list (Z * Z) :=
  match d with
  | [] => [(k, v)]
  | (k', v') :: rest =>
      if k' =? k then (k, v) :: rest else (k', v') :: dict_set rest k v
  end.

(** [d.pop(k, None)]. *)
Fixpoint dict_pop (d : list (Z * Z)) (k : Z) : list (Z * Z) :=
  match d with
  | [] => []
  | (k', v') :: rest =>
      if k' =? k then rest else (k', v') :: dict_pop rest k
  end.

(** [y1 <= r <= y2]. *)
Definition between (y1 r y2 : Z) : bool := (y1 <=? r) && (r <=? y2).

(** [LCDView.clear_lines], on [view.buffer]. *)
Definition clear_lines (y1 y2 : Z) (m : Model) : Model :=
  let kill :=
    map fst (List.filter (fun tc => between y1 (row (snd tc)) y2)
                         (map_to_list (buffer m))) in
  set_buffer (fold_left (fun b tag => delete tag b) kill (buffer m)) m.

(** [LCDView.draw_text], on [view.buffer]. *)
Definition draw_text (cmd : DrawTextCmd) (tag_key : string) (m : Model) : Model :=
  set_buffer (<[tag_key := cmd]> (buffer m)) m.

(** [LCDView.delete_tag], on [view.buffer]. *)
Definition delete_tag (tag_key : string) (m : Model) : Model :=
  set_buffer (delete tag_key (buffer m)) m.

Definition clear_cursor_rows (y1 y2 : Z) (m : Model) : Model :=
  let dead := List.filter (fun r => between y1 r y2) (map fst (cursor_rows m)) in
  fold_left
    (fun m r =>
       let m := delete_tag ("cursor_" +:+ pretty r) m in
       set_cursor_rows (dict_pop (cursor_rows m) r) m)
    dead m.

Definition vfo_of_row (r : Z) : string := if r <? 4 then "A" else "B".

Definition derive_vfo_from_cursors (m : Model) : Model :=
  let active_rows :=
    map fst (List.filter (fun rs => negb (snd rs =? 0)) (cursor_rows m)) in
  match active_rows with
  | r :: _ => set_vfo_state (vfo_of_row r) m
  | [] =>
      match last_cursor_row m with
      | Some r => set_vfo_state (vfo_of_row r) m
      | None => set_vfo_state "?" m
      end
  end.

(** The body of the [while] loop of [process_events] for one event. *)
Definition process_event (m : Model) (evt : Event) : Model :=
  match evt with
  | EvErr msg => set_status (ReaderError msg) m
  | EvPacket ui_t v1 v2 v3 lenb data =>
      if ui_t =? 5 then
        clear_cursor_rows v1 v2 (clear_lines v1 v2 m)
      else if ui_t =? 6 then
        let m := derive_vfo_from_cursors m in
        let '(volts, pct) := decode_battery lenb in
        set_status (StatusLine (vfo_state m) v1 v2 volts pct (keydown_ms m)) m
      else if ui_t =? 7 then
        let row := v1 in
        let style := v2 in
        let m := set_cursor_rows (dict_set (cursor_rows m) row style) m in
        let m := set_last_cursor_row (Some row) m in
        let glyph := if style =? 0 then "▻"%string else "➤"%string in
        draw_text {| x := 0; row := row; scale := 1.0%float; text := glyph |}
                  ("cursor_" +:+ pretty row) m
      else if (ui_t =? 0) || (ui_t =? 1) || (ui_t =? 2) || (ui_t =? 3) then
        let '(x, row) := ui_unpack_xy v1 v2 in
        let text := decode_ascii_replace data in
        let '(scale, row) :=
          if ui_t =? 0 then (1.5%float, row + 1)
          else if ui_t =? 3 then (2.0%float, row + 1)
          else (PrimFloat.div (float_of_int v3) 6.0%float, row + 1) in
        let m :=
          if (ui_t =? 3) && looks_like_freq text then
            let prev := last_freq_by_row m !! row in
            if bool_decide (prev = Some text) then m
            else
              let m := set_last_freq_by_row (<[row := text]> (last_freq_by_row m)) m in
              let which := if row <=? 2 then "TOP"%string else "BOT"%string in
              print ("FREQ " +:+ which +:+ ": " +:+ text +:+ " MHz") m
          else m in
        let tag := "cell_" +:+ pretty ui_t +:+ "_" +:+ pretty row +:+ "_" +:+ pretty x in
        draw_text {| x := x; row := row; scale := scale; text := text |} tag m
      else m
  end.

(** [process_events]: the queue is drained in order. *)
Definition process_events (m : Model) (evts : list Event) : Model :=
  fold_left process_event evts m.

(** The row a TEXT packet's cell ends on: the unpacked row plus the
    offset every TEXT branch adds. *)
Definition text_row (v1 v2 : Z) : Z := snd (ui_unpack_xy v1 v2) + 1.

(** The line printed for a frequency change. *)
Definition freq_line (row : Z) (text : string) : string :=
  "FREQ " +:+ (if row <=? 2 then "TOP" else "BOT") +:+ ": " +:+ text +:+ " MHz".

(** A kind-3 TEXT packet whose cell row is [r] and whose decoded text
    is the frequency-like [t]. *)
Definition freq_packet (r : Z) (t : string) (e : Event) : Prop :=
  exists (v1 v2 v3 lenb : Z) (data : list Z),
    e = EvPacket 3 v1 v2 v3 lenb data
    /\ text_row v1 v2 = r
    /\ decode_ascii_replace data = t
    /\ looks_like_freq t = true.

(** *** The VFO rule as the specification words it *)

(** The smallest row among the cursor entries with a non-zero style. *)
Definition smallest_active_row (entries : list (Z * Z)) : option Z :=
  fold_right
    (fun rs acc =>
       if snd rs =? 0 then acc
       else match acc with
            | Some r => Some (Z.min (fst rs) r)
            | None => Some (fst rs)
            end)
    None entries.

Definition vfo_by_smallest_row (entries : list (Z * Z)) (last : option Z) : string :=
  match smallest_active_row entries with
  | Some r => vfo_of_row r
  | None =>
      match last with
      | Some r => vfo_of_row r
      | None => "?"
      end
  end.

End ScreenModel.

(** ** From the wire to the screen *)

Module Pipeline.
Import StreamParser ScreenModel.

(** [on_ui_packet] of [main]: the tuple put on [q_events]. *)
Definition on_ui_packet (pk : RawUiPacket) : Event :=
  EvPacket (kind pk) (pkt_v1 pk) (pkt_v2 pk) (pkt_v3 pk) (declaredLen pk) (data pk).

(** The screen model after the reader has parsed [bytes] from a fresh
    parser and [process_events] has drained the queue. *)
Definition screen_after (keydown : Z) (bytes : list Z) : Model :=
  process_events (Model_init keydown)
    (map on_ui_packet (snd (feed_chunk Reader_init bytes))).

End Pipeline.

(** ** Key presses: the helpers above [Parser] and the closures of [main] *)

Module CommandChannel.
Import CipherFrame.

Definition DEFAULT_RELEASE_KEY : Z := 19.
Definition DEFAULT_PTT_HOLD : Z := 16.

Definition KEYCODES : gmap string Z :=
  list_to_map
    [("0", 32); ("1", 33); ("2", 34); ("3", 35); ("4", 36);
     ("5", 37); ("6", 38); ("7", 39); ("8", 40); ("9", 41);
     ("MENU", 42); ("UP", 43); ("DN", 44); ("EXIT", 45);
     ("*", 46); ("#", 47); ("PTT_TAP", 48); ("F2", 49); ("F1", 50)]%string.

(** The labels of the buttons [main] creates, in creation order: the
    keypad [grid] row by row, then the navigation column.  These are
    the keys of [btns]. *)
Definition button_labels : list string :=
  ["1"; "2"; "3"; "4"; "5"; "6"; "7"; "8"; "9"; "*"; "0"; "#";
   "UP"; "DN"; "MENU"; "EXIT"; "F1"; "F2"; "PTT_TAP"]%string.

(** The frame of a key press, in the words of [wire_frame]. *)
Definition keypress_frame (k : Z) : list Z := wire_frame PKT_KEYPRESS (le16 k).


(** The serial port and the pauses taken between writes: each
    [time.sleep(max(0, down_ms) / 1000.0)] is recorded by its number
    of milliseconds, [max(0, down_ms)]. *)
Record Line : Type := {
  port : Serial;
  slept : list Z
}.

(** What stopped a call: an exception of the encoder, or the
    [KeyError] of [KEYCODES[label]]. *)
Inductive raised : Type :=
| Encoder (e : exn)
| KeyError (label : string).

(** [send_keypress] on the line.  [send_command] writes as its last
    step, so a raised exception leaves the port as it was. *)
Definition keypress (l : Line) (keycode : Z) : Line * option raised :=
  match send_keypress (port l) keycode with
  | Ok ser => ({| port := ser; slept := slept l |}, None)
  | Raise e => (l, Some (Encoder e))
  end.

Definition sleep_ms (ms : Z) (l : Line) : Line :=
  {| port := port l; slept := slept l ++ [ms] |}.

Definition press_for_ms (l : Line) (keycode : Z) (release_key : option Z)
    (down_ms : Z) : Line * option raised :=
  match keypress l keycode with
  | (l, Some e) => (l, Some e)
  | (l, None) =>
      match release_key with
      | Some r => keypress (sleep_ms (Z.max 0 down_ms) l) r
      | None => (l, None)
      end
  end.

Definition tap_key (l : Line) (keycode : Z) (release_key : option Z)
    (down_ms : Z) : Line * option raised :=
  press_for_ms l keycode release_key down_ms.

(** The values [main] derives from the command line. *)
Record Config : Type := {
  release_key : option Z;
  ptt_hold_key : Z;
  keydown_ms : Z
}.

(** [--release], [--ptt-hold], [--keydown-ms] as [main] reads them. *)
Definition config_of_args (release ptt_hold keydown : Z) : Config :=
  {| release_key := if release =? -1 then None else Some release;
     ptt_hold_key := ptt_hold;
     keydown_ms := Z.max 10 keydown |}.

Definition do_getscreen (l : Line) : Line * option raised :=
  match send_command (port l) PKT_GETSCREEN [] with
  | Ok ser => ({| port := ser; slept := slept l |}, None)
  | Raise e => (l, Some (Encoder e))
  end.

(** [do_key(label)] with [ms] left at its default. *)
Definition do_key (cfg : Config) (label : string) (l : Line) : Line * option raised :=
  match KEYCODES !! label with
  | Some code => tap_key l code (release_key cfg) (keydown_ms cfg)
  | None => (l, Some (KeyError label))
  end.

Definition ptt_press (cfg : Config) (l : Line) : Line * option raised :=
  keypress l (ptt_hold_key cfg).

Definition ptt_release (cfg : Config) (l : Line) : Line * option raised :=
  match release_key cfg with
  | None => (l, None)
  | Some r => keypress l r
  end.

(** *** Keyboard bindings *)

(** The fields of a Tk key event the handlers read. *)
Record KeyEvent : Type := {
  keycode : Z;
  keysym : string;
  char : string
}.

(** The line and the set [down] of key codes held. *)
Record Keyboard : Type := {
  line : Line;
  down : gset Z
}.

(** [str.isdigit] on a key name: non-empty and all decimal digits.
    Tk key names are ASCII. *)
Definition str_isdigit (s : string) : bool :=
  match list_ascii_of_string s with
  | [] => false
  | cs => forallb ScreenModel.isdigit cs
  end.

Definition normalize_digit_key (event : KeyEvent) : option string :=
  let ks := keysym event in
  if str_isdigit ks then Some ks
  else if String.prefix "KP_" ks && str_isdigit (String.substring 3 (String.length ks - 3) ks)
       then Some (String.substring 3 (String.length ks - 3) ks)
       else None.

(** [btns[label].invoke()]: the button's command is [do_key(label)].
    The second component is the exception the command ended with, if
    any; Tk reports it and the handler returns as it would anyway. *)
Definition invoke (cfg : Config) (label : string) (k : Keyboard) : Keyboard * option raised :=
  let '(l, r) := do_key cfg label (line k) in
  ({| line := l; down := down k |}, r).

Definition on_line (f : Line -> Line * option raised) (k : Keyboard) : Keyboard * option raised :=
  let '(l, r) := f (line k) in
  ({| line := l; down := down k |}, r).

(** The tests of [keypress_handler] that follow the digit keys. *)
Definition other_keys (cfg : Config) (k : Keyboard) (event : KeyEvent)
    : Keyboard * option raised :=
  if String.eqb (char event) "#" then invoke cfg "#" k
  else if String.eqb (char event) "*" && bool_decide ("*"%string ∈ button_labels)
  then invoke cfg "*" k
  else if String.eqb (keysym event) "Escape" then invoke cfg "EXIT" k
  else if String.eqb (keysym event) "Return" || String.eqb (keysym event) "KP_Enter"
  then invoke cfg "MENU" k
  else if String.eqb (keysym event) "space" then on_line (ptt_press cfg) k
  else if String.eqb (keysym event) "Up" then invoke cfg "UP" k
  else if String.eqb (keysym event) "Down" then invoke cfg "DN" k
  else (k, None).

(** The line after bytes were written to the port. *)
Definition wrote (frame : list Z) (l : Line) : Line :=
  {| port := ser_write (port l) frame; slept := slept l |}.

Definition keypress_handler (cfg : Config) (k : Keyboard) (event : KeyEvent)
    : Keyboard * option raised :=
  if bool_decide (keycode event ∈ down k) then (k, None)
  else
    let k := {| line := line k; down := {[keycode event]} ∪ down k |} in
    match normalize_digit_key event with
    | Some d =>
        if bool_decide (d ∈ button_labels) then invoke cfg d k
        else other_keys cfg k event
    | None => other_keys cfg k event
    end.

Definition keyrelease_handler (cfg : Config) (k : Keyboard) (event : KeyEvent)
    : Keyboard * option raised :=
  let k := {| line := line k; down := down k ∖ {[keycode event]} |} in
  if String.eqb (keysym event) "space" then on_line (ptt_release cfg) k
  else (k, None).

Definition on_focus_out (cfg : Config) (k : Keyboard) : Keyboard * option raised :=
  on_line (ptt_release cfg) {| line := line k; down := ∅ |}.

End CommandChannel.

Section CipherFrameFacts.
Import CipherFrame.

(** The checksum of the key-press record for keycode 42. *)
Example crc16_keypress_42 :
  crc16_plain [0x01; 0x08; 0x02; 0x00; 0x2A; 0x00] 0 = 0x43C8.
Proof. vm_compute. reflexivity. Qed.

(** On the ASCII digits 1 to 9 the checksum is 0x31C3. *)
Example crc16_digits :
  crc16_plain [49; 50; 51; 52; 53; 54; 55; 56; 57] 0 = 0x31C3.
Proof. vm_compute. reflexivity. Qed.

(** XOR never leaves the width of its operands. *)
Lemma lxor_below (n a b : Z) :
  0 <= n -> 0 <= a < 2 ^ n -> 0 <= b < 2 ^ n -> 0 <= Z.lxor a b < 2 ^ n.
Proof.
  intros Hn [Ha0 Ha] [Hb0 Hb]. split.
  - apply Z.lxor_nonneg. lia.
  - destruct (Z.eq_dec (Z.lxor a b) 0) as [-> | Hne]; [lia |].
    assert (0 < Z.lxor a b) by (pose proof (proj2 (Z.lxor_nonneg a b)); lia).
    apply Z.log2_lt_pow2; [assumption |].
    pose proof (Z.log2_lxor a b Ha0 Hb0) as Hl.
    assert (Hlog : forall x, 0 <= x < 2 ^ n -> Z.log2 x < n \/ x = 0).
    { intros x Hx. destruct (Z.eq_dec x 0); [now right | left].
      apply Z.log2_lt_pow2; lia. }
    destruct (Hlog a) as [? | ->]; [lia | |]
    ; destruct (Hlog b) as [? | ->]; try lia.
    + rewrite Z.lxor_0_r in *. lia.
    + rewrite Z.lxor_0_l in *. lia.
    + now rewrite Z.lxor_0_l in Hne.
Qed.

Lemma lxor_byte (a b : Z) : is_byte a -> is_byte b -> is_byte (Z.lxor a b).
Proof. unfold is_byte. apply (lxor_below 8). lia. Qed.

Lemma to_bytes2_little_le16 (n : Z) :
  0 <= n < 65536 -> to_bytes2_little n = Ok (le16 n).
Proof.
  intros Hn. unfold to_bytes2_little, le16.
  replace ((0 <=? n) && (n <? 65536)) with true
    by (symmetry; apply andb_true_iff; split; [apply Z.leb_le | apply Z.ltb_lt]; lia).
  change 255 with (Z.ones 8).
  rewrite !Z.land_ones, Z.shiftr_div_pow2 by lia.
  change (2 ^ 8) with 256.
  rewrite (Z.mod_small (n / 256)); [reflexivity |].
  split; [apply Z.div_pos; lia | apply Z.div_lt_upper_bound; lia].
Qed.

Lemma to_bytes2_little_overflow (n : Z) :
  65536 <= n -> to_bytes2_little n = @Raise (list Z) OverflowError.
Proof.
  intros Hn. unfold to_bytes2_little.
  replace (n <? 65536) with false by (symmetry; apply Z.ltb_ge; lia).
  now rewrite andb_false_r.
Qed.

Lemma le16_bytes (n : Z) : 0 <= n < 65536 -> Forall is_byte (le16 n).
Proof.
  intros Hn. unfold le16, is_byte.
  repeat constructor; try (apply Z.mod_pos_bound; lia).
  - apply Z.div_pos; lia.
  - apply Z.div_lt_upper_bound; lia.
Qed.

Lemma bytearray_item_byte (x : Z) : is_byte x -> bytearray_item x = Ok x.
Proof.
  unfold is_byte, bytearray_item. intros Hx.
  replace ((0 <=? x) && (x <? 256)) with true; [reflexivity |].
  symmetry; apply andb_true_iff; split; [apply Z.leb_le | apply Z.ltb_lt]; lia.
Qed.

Lemma XOR_ARRAY_bytes : Forall is_byte XOR_ARRAY.
Proof. unfold XOR_ARRAY, is_byte. repeat constructor; lia. Qed.

Lemma key_byte (k : nat) : is_byte (nth k XOR_ARRAY 0).
Proof.
  destruct (Nat.lt_ge_cases k (length XOR_ARRAY)) as [Hk | Hk].
  - apply (proj1 (List.Forall_forall _ _) XOR_ARRAY_bytes), nth_In, Hk.
  - rewrite nth_overflow by exact Hk. unfold is_byte; lia.
Qed.

(** [i & 0x0F] is [i mod 16] on the enumeration counters. *)
Lemma land_0x0F (k : nat) :
  Z.to_nat (Z.land (Z.of_nat k) 0x0F) = (k mod 16)%nat.
Proof.
  change 0x0F with (Z.ones 4). rewrite Z.land_ones by lia.
  change (2 ^ 4) with (Z.of_nat 16).
  rewrite <- Nat2Z.inj_mod. apply Nat2Z.id.
Qed.

Lemma crypt_key (b : Z) (k : nat) :
  crypt b (Z.of_nat k) = Z.lxor b (nth (k mod 16)%nat XOR_ARRAY 0).
Proof. unfold crypt. now rewrite land_0x0F. Qed.

Lemma crypt_byte (b i : Z) : is_byte b -> is_byte (crypt b i).
Proof. intros Hb. unfold crypt. apply lxor_byte; [exact Hb | apply key_byte]. Qed.

Lemma encrypt_from_imap (plain : list Z) :
  Forall is_byte plain ->
  forall k : nat,
    encrypt_from (Z.of_nat k) plain
    = Ok (imap (fun j s => Z.lxor s (nth ((k + j) mod 16)%nat XOR_ARRAY 0)) plain).
Proof.
  induction 1 as [| bb rest Hbb Hrest IH]; intros k; [reflexivity |].
  cbn [encrypt_from imap].
  rewrite bytearray_item_byte by (apply crypt_byte; exact Hbb).
  cbn [pybind].
  replace (Z.of_nat k + 1) with (Z.of_nat (S k)) by lia.
  rewrite IH. cbn [pybind].
  rewrite crypt_key, Nat.add_0_r. do 2 f_equal.
  apply imap_ext. intros j s _. cbn. now rewrite Nat.add_succ_r.
Qed.

Lemma crc16_shift_range (crc : Z) :
  0 <= crc < 65536 -> 0 <= crc16_shift crc < 65536.
Proof.
  intros Hc. unfold crc16_shift. rewrite Z.shiftl_mul_pow2 by lia.
  change (2 ^ 1) with 2.
  destruct (Z.ltb_spec 65535 (crc * 2)) as [Hgt | Hle]; [| lia].
  change 65535 with (Z.ones 16). rewrite Z.land_ones by lia.
  apply Z.mod_pos_bound. lia.
Qed.

Lemma lxor_u16 (a b : Z) :
  0 <= a < 65536 -> 0 <= b < 65536 -> 0 <= Z.lxor a b < 65536.
Proof. apply (lxor_below 16). lia. Qed.

Lemma crc16_byte_range (byt crc : Z) :
  is_byte byt -> 0 <= crc < 65536 -> 0 <= crc16_byte byt crc < 65536.
Proof.
  unfold is_byte. intros Hb Hc. unfold crc16_byte.
  assert (H0 : 0 <= Z.lxor crc (Z.shiftl byt 8) < 65536).
  { apply lxor_u16; [exact Hc |]. rewrite Z.shiftl_mul_pow2 by lia.
    change (2 ^ 8) with 256. lia. }
  generalize dependent (Z.lxor crc (Z.shiftl byt 8)). intros z Hz.
  cbn [Nat.iter]. now repeat apply crc16_shift_range.
Qed.

Lemma crc16_plain_range (plain : list Z) :
  Forall is_byte plain ->
  forall crc, 0 <= crc < 65536 -> 0 <= crc16_plain plain crc < 65536.
Proof.
  induction 1 as [| bb rest Hbb Hrest IH]; intros crc Hc; [exact Hc |].
  cbn. apply IH, crc16_byte_range; assumption.
Qed.

Lemma plain_record_bytes (c : Z) (p : list Z) :
  0 <= c < 65536 -> Z.of_nat (length p) < 65536 -> Forall is_byte p ->
  Forall is_byte (plain_record c p).
Proof.
  intros Hc Hl Hp. unfold plain_record.
  repeat apply Forall_app_2; try exact Hp; apply le16_bytes; lia.
Qed.


Lemma encrypt_from_0 (plain : list Z) :
  Forall is_byte plain -> encrypt_from 0 plain = Ok (xor_with_key plain).
Proof.
  intros Hp. apply (encrypt_from_imap plain Hp 0%nat).
Qed.

Lemma le16_land (n : Z) :
  0 <= n < 65536 -> [Z.land n 0xFF; Z.land (Z.shiftr n 8) 0xFF] = le16 n.
Proof.
  intros Hn. pose proof (to_bytes2_little_le16 n Hn) as H.
  unfold to_bytes2_little in H.
  destruct ((0 <=? n) && (n <? 65536)); [congruence | discriminate].
Qed.

(** The two CRC bytes are encrypted at the positions that follow the
    record, as [xor_i] counts them. *)
Lemma xor_with_key_snoc2 (plain : list Z) (lo hi : Z) :
  xor_with_key (plain ++ [lo; hi])
  = xor_with_key plain
      ++ [crypt lo (Z.of_nat (length plain));
          crypt hi (Z.of_nat (length plain) + 1)].
Proof.
  unfold xor_with_key. rewrite imap_app. f_equal.
  replace (Z.of_nat (length plain) + 1) with (Z.of_nat (S (length plain))) by lia.
  rewrite !crypt_key. unfold imap; fold (@imap Z Z). unfold compose.
  now rewrite Nat.add_0_r, Nat.add_1_r.
Qed.

(** Everything [send_command] does before it builds the length field
    succeeds on a u16 command and a byte payload whose length is a
    u16; what is left is the range check of [enc_len_field]. *)
Lemma send_command_up_to_length_field (ser : Serial) (c : Z) (p : list Z) :
  0 <= c < 65536 ->
  Forall is_byte p ->
  Z.of_nat (length p) < 65536 ->
  0 <= crc16_plain (plain_record c p) 0 < 65536
  /\ send_command ser c p
     = (let! lf := to_bytes2_little (4 + Z.of_nat (length p)) in
        Ok (ser_write ser
              ([0xAB; 0xCD] ++ lf
                 ++ xor_with_key
                      (plain_record c p ++ le16 (crc16_plain (plain_record c p) 0))
                 ++ [0xDC; 0xBA]))).
Proof.
  intros Hc Hp Hlen.
  assert (Hrec : Forall is_byte (plain_record c p))
    by (apply plain_record_bytes; [exact Hc | lia | exact Hp]).
  assert (Hcrc : 0 <= crc16_plain (plain_record c p) 0 < 65536)
    by (apply crc16_plain_range; [exact Hrec | lia]).
  split; [exact Hcrc |].
  unfold send_command.
  rewrite (to_bytes2_little_le16 c) by exact Hc. cbn [pybind].
  rewrite (to_bytes2_little_le16 (Z.of_nat (length p))) by lia. cbn [pybind].
  fold (plain_record c p).
  rewrite encrypt_from_0 by exact Hrec. cbn [pybind].
  set (crc := crc16_plain (plain_record c p) 0) in *.
  pose proof (le16_bytes crc Hcrc) as Hle. rewrite <- (le16_land crc Hcrc) in Hle.
  apply Forall_cons_1 in Hle as [Hlo Hhi]. apply Forall_cons_1 in Hhi as [Hhi _].
  rewrite bytearray_item_byte by (apply crypt_byte; exact Hlo). cbn [pybind].
  rewrite bytearray_item_byte by (apply crypt_byte; exact Hhi). cbn [pybind].
  rewrite <- (le16_land crc Hcrc), xor_with_key_snoc2. reflexivity.
Qed.

(** Past 65531 payload bytes the length field no longer fits. *)
Lemma send_command_long_payload_raises (ser : Serial) (c : Z) (p : list Z) :
  0 <= c < 65536 ->
  Forall is_byte p ->
  65532 <= Z.of_nat (length p) < 65536 ->
  send_command ser c p = Raise OverflowError.
Proof.
  intros Hc Hp Hlen.
  destruct (send_command_up_to_length_field ser c p Hc Hp) as [_ ->]; [lia |].
  now rewrite to_bytes2_little_overflow by lia.
Qed.

(** C1 (amended): for every command id that is a u16 and every byte
    payload of at most 65531 bytes, so that 4 + len(p) still fits the
    16-bit length field, [send_command] writes exactly AB CD, the
    little-endian 4 + len(p), the record and its CRC16 (low byte, then
    high byte) XORed with key[i mod 16], and DC BA; the CRC16 of the
    bit-serial algorithm is a 16-bit value. *)
Theorem send_command_writes_wire_frame (ser : Serial) (c : Z) (p : list Z) :
  0 <= c < 65536 ->
  Forall is_byte p ->
  Z.of_nat (length p) <= 65531 ->
  send_command ser c p = Ok (ser_write ser (wire_frame c p))
  /\ 0 <= crc16_plain (plain_record c p) 0 < 65536.
Proof.
  intros Hc Hp Hlen.
  destruct (send_command_up_to_length_field ser c p Hc Hp) as [Hcrc ->]; [lia |].
  split; [| exact Hcrc].
  rewrite (to_bytes2_little_le16 (4 + Z.of_nat (length p))) by lia.
  reflexivity.
Qed.

(** The key-press frame for keycode 42: command 0x0801, payload 2A 00. *)
Lemma send_command_writes_wire_frame_witness :
  send_command {| written := [] |} PKT_KEYPRESS [0x2A; 0]
  = Ok {| written := [0xAB; 0xCD; 6; 0; 0x17; 0x64; 0x16; 0xE6; 0x04; 0x91;
                      0xC5; 0x03; 0xDC; 0xBA] |}.
Proof.
  refine (eq_trans
    (proj1 (send_command_writes_wire_frame {| written := [] |} PKT_KEYPRESS
              [0x2A; 0] _ _ _)) _).
  - unfold PKT_KEYPRESS; lia.
  - unfold is_byte; repeat constructor; lia.
  - simpl; lia.
  - reflexivity.
Defined.

(** C1 as first stated fails for payloads of 65532 to 65535 bytes: the
    length fits a u16, 4 + len(p) does not, and [send_command] raises
    [OverflowError] on the length field instead of writing a frame. *)
Lemma send_command_length_field_overflow :
  Z.of_nat (length (repeat 0 (Z.to_nat 65532))) < 65536
  /\ Forall is_byte (repeat 0 (Z.to_nat 65532))
  /\ send_command {| written := [] |} PKT_KEYPRESS (repeat 0 (Z.to_nat 65532))
     = Raise OverflowError.
Proof.
  split; [| split].
  - rewrite repeat_length. lia.
  - apply List.Forall_forall. intros b Hb. apply repeat_spec in Hb as ->.
    unfold is_byte; lia.
  - vm_compute. reflexivity.
Qed.

End CipherFrameFacts.

(** ** The stream parser *)

Section StreamParserFacts.
Import StreamParser.

Lemma feed_chunk_app (r : Reader) (c1 c2 : list Z) :
  feed_chunk r (c1 ++ c2) = feed_chunk (feed_chunk r c1) c2.
Proof. apply fold_left_app. Qed.

Lemma feed_chunks_concat (chunks : list (list Z)) :
  forall r, feed_chunks r chunks = feed_chunk r (concat chunks).
Proof.
  induction chunks as [| c chunks IH]; intros r; [reflexivity |].
  cbn [concat]. rewrite feed_chunk_app. apply IH.
Qed.

Lemma concat_singletons (bs : list Z) : concat (map (fun b => [b]) bs) = bs.
Proof. induction bs as [| b bs IH]; [reflexivity |]. cbn. now rewrite IH. Qed.

(** C2: any two ways of cutting one byte sequence into chunks leave the
    reader with the same parser state and the same queue of emitted
    packets, and so does feeding the sequence one byte at a time. *)
Theorem chunking_determinism (chunks1 chunks2 : list (list Z)) :
  concat chunks1 = concat chunks2 ->
  feed_chunks Reader_init chunks1 = feed_chunks Reader_init chunks2
  /\ feed_chunks Reader_init (map (fun b => [b]) (concat chunks1))
     = feed_chunks Reader_init chunks1.
Proof.
  intros Hsame. rewrite !feed_chunks_concat, concat_singletons.
  now rewrite Hsame.
Qed.

Lemma chunking_determinism_witness :
  feed_chunks Reader_init [[0xB5; 7]; [1; 2; 0]; []; [0; 0xB5; 6; 0; 0]; [0; 200]]
  = feed_chunks Reader_init [[0xB5; 7; 1; 2; 0; 0; 0xB5]; [6; 0; 0; 0; 200]].
Proof.
  refine (proj1 (chunking_determinism
           [[0xB5; 7]; [1; 2; 0]; []; [0; 0xB5; 6; 0; 0]; [0; 200]]
           [[0xB5; 7; 1; 2; 0; 0; 0xB5]; [6; 0; 0; 0; 200]] _)).
  reflexivity.
Defined.

(** C4: on the frame AB CD 00 00 crcLo crcHi DC BA the code enters
    [DATA] after the high length byte and counts crcLo as a data byte
    ([p_cnt] ends at 1); crcHi is taken as the first CRC byte, DC as
    the second, and BA fails the DC check. *)
Theorem zero_length_frame_counts_a_data_byte (crcLo crcHi : Z) :
  stages Parser_init [0xAB; 0xCD; 0; 0; crcLo; crcHi; 0xDC; 0xBA]
  = [CD; LEN_LSB; LEN_MSB; DATA; CRC_LSB; CRC_MSB; DC; IDLE]
  /\ p_cnt (fst (feed_chunk Reader_init [0xAB; 0xCD; 0; 0; crcLo])) = 1
  /\ stage (fst (feed_chunk Reader_init [0xAB; 0xCD; 0; 0])) <> CRC_LSB.
Proof.
  split; [| split].
  - vm_compute. reflexivity.
  - vm_compute. reflexivity.
  - vm_compute. discriminate.
Qed.

(** Outside a packet, bytes other than the two sync bytes are dropped. *)
Lemma idle_drops_noise (noise : list Z) :
  Forall (fun b => b <> 0xAB /\ b <> 0xB5) noise ->
  forall (self : Parser) (q : list RawUiPacket),
    stage self = IDLE -> feed_chunk (self, q) noise = (self, q).
Proof.
  induction 1 as [| b noise [Hab Hb5] Hnoise IH]; intros self q Hidle;
    [reflexivity |].
  cbn [feed_chunk fold_left feed_byte]. unfold feed. rewrite Hidle.
  destruct (Z.eqb_spec b 0xAB) as [? | _]; [contradiction |].
  destruct (Z.eqb_spec b 0xB5) as [? | _]; [contradiction |].
  rewrite app_nil_r. now apply IH.
Qed.

Lemma no_sync_quiet_prefix (noise : list Z) :
  Forall (fun b => b <> 0xAB /\ b <> 0xB5) noise -> quiet_prefix noise.
Proof.
  intros Hn. unfold quiet_prefix, Reader_init.
  now rewrite (idle_drops_noise noise Hn Parser_init []).
Qed.

(** [UI_DATA] collects bytes until [ui_need] of them are buffered, then
    emits once and returns to [IDLE]. *)
Lemma ui_data_collects (d : list Z) :
  forall (self : Parser) (q : list RawUiPacket),
    stage self = UI_DATA ->
    d <> [] ->
    Z.of_nat (length (ui_buf self ++ d)) = ui_need self ->
    feed_chunk (self, q) d
    = (set_stage IDLE (set_ui_buf (ui_buf self ++ d) self),
       q ++ [packet_of self (ui_buf self ++ d)]).
Proof.
  induction d as [| b d IH]; intros self q Hst Hne Hlen; [congruence |].
  cbn [feed_chunk fold_left feed_byte]. unfold feed. rewrite Hst.
  cbn [ui_need ui_buf set_ui_buf].
  destruct d as [| b' d].
  - rewrite <- Hlen, Z.leb_refl. reflexivity.
  - destruct (Z.leb_spec (ui_need self) (Z.of_nat (length (ui_buf self ++ [b]))))
      as [Hle | _].
    + rewrite !length_app in *. cbn [length] in *. lia.
    + rewrite app_nil_r.
      change (fold_left feed_byte (b' :: d) ?r) with (feed_chunk r (b' :: d)).
      rewrite IH; cbn [stage ui_buf ui_need set_ui_buf]; try congruence.
      * rewrite <- !app_assoc. reflexivity.
      * rewrite <- app_assoc. exact Hlen.
Qed.

(** From [IDLE], the bytes of a well-formed UI packet emit that packet,
    and nothing else, and bring the parser back to [IDLE]. *)
Lemma idle_parses_packet (pk : RawUiPacket) (self : Parser) (q : list RawUiPacket) :
  well_formed pk ->
  stage self = IDLE ->
  exists self',
    feed_chunk (self, q) (ui_packet_bytes pk) = (self', q ++ [pk])
    /\ stage self' = IDLE.
Proof.
  destruct pk as [k a b c L d]. unfold well_formed, ui_packet_bytes.
  cbn [kind pkt_v1 pkt_v2 pkt_v3 declaredLen data].
  intros Hwf Hidle. rewrite feed_chunk_app.
  assert (Hhdr : feed_chunk (self, q) [0xB5; k; a; b; c]
                 = (set_stage UI_LEN
                      (set_v3 c (set_v2 b (set_v1 a (set_ui_type k self)))), q)).
  { cbn [feed_chunk fold_left feed_byte]. unfold feed at 1. rewrite Hidle.
    cbn. rewrite !app_nil_r. reflexivity. }
  change [0xB5; k; a; b; c; L] with ([0xB5; k; a; b; c] ++ [L]).
  rewrite feed_chunk_app, Hhdr.
  cbn [feed_chunk fold_left feed_byte]. unfold feed at 1.
  cbn [stage set_stage set_v3 set_v2 set_v1 set_ui_type ui_type ui_need
       set_ui_len_need].
  destruct (Z.eqb_spec (if k =? 6 then 0 else L) 0) as [Hz | Hnz].
  - rewrite Hz in Hwf. destruct d; [| discriminate].
    eexists. split; [reflexivity | reflexivity].
  - eexists.
    change (fold_left feed_byte d ?r) with (feed_chunk r d).
    rewrite ui_data_collects; cbn; try reflexivity.
    + rewrite app_nil_r. split; reflexivity.
    + intros ->. apply Hnz. symmetry. exact Hwf.
    + exact Hwf.
Qed.

(** C5 (amended): when the stray prefix leaves a fresh parser in
    [IDLE] with nothing emitted, the prefix followed by one well-formed
    UI packet emits exactly that packet and ends in [IDLE]; every
    prefix holding neither sync byte (AB, B5) is of that kind. *)
Theorem resync_after_quiet_prefix (prefix : list Z) (pk : RawUiPacket) :
  well_formed pk ->
  quiet_prefix prefix
  \/ Forall (fun b => b <> 0xAB /\ b <> 0xB5) prefix ->
  snd (feed_chunk Reader_init (prefix ++ ui_packet_bytes pk)) = [pk]
  /\ stage (fst (feed_chunk Reader_init (prefix ++ ui_packet_bytes pk))) = IDLE.
Proof.
  intros Hwf Hq.
  assert (Hquiet : quiet_prefix prefix)
    by (destruct Hq as [Hq | Hq]; [exact Hq | now apply no_sync_quiet_prefix]).
  destruct Hquiet as [Hidle Hnone]. rewrite feed_chunk_app.
  destruct (feed_chunk Reader_init prefix) as [self q]. cbn [fst snd] in *.
  subst q.
  destruct (idle_parses_packet pk self [] Hwf Hidle) as (self' & -> & Hst).
  split; [reflexivity | exact Hst].
Qed.

(** The tail "crcHi DC BA" of a command frame, then a TEXT packet. *)
Lemma resync_after_quiet_prefix_witness :
  snd (feed_chunk Reader_init
         ([0x5A; 0xDC; 0xBA]
          ++ ui_packet_bytes {| kind := 3; pkt_v1 := 10; pkt_v2 := 1; pkt_v3 := 0;
                                declaredLen := 3; data := [0x34; 0x2E; 0x35] |}))
  = [{| kind := 3; pkt_v1 := 10; pkt_v2 := 1; pkt_v3 := 0;
        declaredLen := 3; data := [0x34; 0x2E; 0x35] |}].
Proof.
  refine (proj1 (resync_after_quiet_prefix [0x5A; 0xDC; 0xBA]
                   {| kind := 3; pkt_v1 := 10; pkt_v2 := 1; pkt_v3 := 0;
                      declaredLen := 3; data := [0x34; 0x2E; 0x35] |} _ _)).
  - reflexivity.
  - left. split; vm_compute; reflexivity.
Defined.

(** C5 as first stated fails: a stray B5 is a prefix that forms no
    packet, yet it makes the parser read the following well-formed
    packet's sync byte as a kind and its length byte as v3; nothing is
    emitted. *)
Lemma stray_sync_byte_swallows_packet :
  well_formed {| kind := 0; pkt_v1 := 1; pkt_v2 := 2; pkt_v3 := 3;
                 declaredLen := 1; data := [0x41] |}
  /\ snd (feed_chunk Reader_init
            ([0xB5]
             ++ ui_packet_bytes {| kind := 0; pkt_v1 := 1; pkt_v2 := 2; pkt_v3 := 3;
                                   declaredLen := 1; data := [0x41] |}))
     = [].
Proof. split; vm_compute; reflexivity. Qed.

(** C6: in [UI_LEN] with kind 6 the parser emits at once, whatever the
    length byte, a packet with empty data that carries the length byte
    as [declaredLen], and is back in [IDLE]; so the six header bytes of
    a STATUS packet, fed in [IDLE], emit exactly that packet. *)
Theorem status_packet_emitted_at_length_byte (self : Parser) (L : Z) :
  stage self = UI_LEN ->
  ui_type self = 6 ->
  snd (feed self L)
  = Some {| kind := 6; pkt_v1 := v1 self; pkt_v2 := v2 self; pkt_v3 := v3 self;
            declaredLen := L; data := [] |}
  /\ stage (fst (feed self L)) = IDLE
  /\ forall (idle : Parser) (q : list RawUiPacket) (a b c : Z),
       stage idle = IDLE ->
       snd (feed_chunk (idle, q) [0xB5; 6; a; b; c; L])
       = q ++ [{| kind := 6; pkt_v1 := a; pkt_v2 := b; pkt_v3 := c;
                  declaredLen := L; data := [] |}]
       /\ stage (fst (feed_chunk (idle, q) [0xB5; 6; a; b; c; L])) = IDLE.
Proof.
  intros Hst Hty. unfold feed. rewrite Hst.
  cbn [ui_need set_ui_len_need]. rewrite Hty. cbn.
  unfold packet_of. cbn. rewrite Hty.
  split; [reflexivity | split; [reflexivity |]].
  intros idle q a b c Hidle.
  destruct (idle_parses_packet
              {| kind := 6; pkt_v1 := a; pkt_v2 := b; pkt_v3 := c;
                 declaredLen := L; data := [] |} idle q eq_refl Hidle)
    as (self' & Hrun & Hidle').
  cbn in Hrun. rewrite Hrun. split; [reflexivity | exact Hidle'].
Qed.

Lemma status_packet_emitted_at_length_byte_witness :
  snd (feed (fst (feed_chunk Reader_init [0xB5; 6; 1; 2; 3])) 255)
  = Some {| kind := 6; pkt_v1 := 1; pkt_v2 := 2; pkt_v3 := 3;
            declaredLen := 255; data := [] |}.
Proof.
  refine (proj1 (status_packet_emitted_at_length_byte
                   (fst (feed_chunk Reader_init [0xB5; 6; 1; 2; 3])) 255 _ _)).
  - vm_compute. reflexivity.
  - vm_compute. reflexivity.
Defined.

End StreamParserFacts.

(** ** The screen model *)

Section ScreenModelFacts.
Import ScreenModel.

Example decode_ascii_replace_high_byte :
  decode_ascii_replace [0x34; 200]
  = String "4" (String "239" (String "191" (String "189" EmptyString))).
Proof. vm_compute. reflexivity. Qed.

Example looks_like_freq_examples :
  looks_like_freq "145.500" = true
  /\ looks_like_freq "VFO." = false
  /\ looks_like_freq "1455" = false.
Proof. repeat split; vm_compute; reflexivity. Qed.

Example dict_set_keeps_place :
  dict_set [(5, 2); (1, 1)] 5 0 = [(5, 0); (1, 1)]
  /\ dict_set (dict_pop [(5, 2); (1, 1)] 5) 5 0 = [(1, 1); (5, 0)].
Proof. split; reflexivity. Qed.

Lemma unpack_loop_spec (x row : Z) :
  exists k : nat,
    fst (unpack_loop x row) = x - 128 * Z.of_nat k
    /\ snd (unpack_loop x row) = row + Z.of_nat k
    /\ fst (unpack_loop x row) <= 128
    /\ (k = 0%nat \/ 0 < fst (unpack_loop x row)).
Proof.
  funelim (unpack_loop x row).
  - destruct H as (k & Hx & Hrow & Hle & Hpos).
    exists (S k). repeat split; lia.
  - exists 0%nat. cbn [fst snd]. repeat split; lia.
Qed.

Lemma active_rows_split (before after : list (Z * Z)) (r st : Z) :
  Forall (fun e => snd e = 0) before ->
  st <> 0 ->
  map fst (List.filter (fun rs => negb (snd rs =? 0)) (before ++ (r, st) :: after))
  = r :: map fst (List.filter (fun rs => negb (snd rs =? 0)) after).
Proof.
  intros Hb Hst. induction Hb as [| [r' st'] before Hz Hb IH]; cbn in *.
  - destruct (Z.eqb_spec st 0); [contradiction | reflexivity].
  - subst st'. cbn. exact IH.
Qed.

Lemma active_rows_none (entries : list (Z * Z)) :
  Forall (fun e => snd e = 0) entries ->
  List.filter (fun rs => negb (snd rs =? 0)) entries = [].
Proof.
  induction 1 as [| [r st] entries Hz He IH]; [reflexivity |].
  cbn in *. subst st. cbn. exact IH.
Qed.

(** On entries in increasing row order the first active row is the
    smallest one. *)
Lemma sorted_first_active_is_smallest (entries : list (Z * Z)) :
  StronglySorted Z.lt (map fst entries) ->
  smallest_active_row entries
  = head (map fst (List.filter (fun rs => negb (snd rs =? 0)) entries)).
Proof.
  induction entries as [| [r st] entries IH]; intros Hs; [reflexivity |].
  cbn [map fst] in Hs. apply StronglySorted_inv in Hs as [Hs Hall].
  specialize (IH Hs). cbn [smallest_active_row fold_right List.filter fst snd].
  fold (smallest_active_row entries).
  destruct (Z.eqb_spec st 0) as [_ | _]; cbn [negb]; [exact IH |].
  cbn [map head fst].
  destruct (smallest_active_row entries) as [r' |] eqn:Hsm; [| reflexivity].
  f_equal. apply Z.min_l.
  assert (Hin : In r' (map fst entries)).
  { symmetry in IH.
    destruct (List.filter (fun rs => negb (snd rs =? 0)) entries)
      as [| e l] eqn:Hf; [discriminate |].
    cbn in IH. injection IH as <-.
    apply in_map.
    apply (proj1 (filter_In (fun rs => negb (snd rs =? 0)) e entries)).
    rewrite Hf. now left. }
  pose proof (proj1 (List.Forall_forall _ _) Hall r' Hin). lia.
Qed.

(** C3 (amended): the VFO comes from the first cursor entry, in the
    dictionary's insertion order, whose style is not 0; without such an
    entry, from the remembered last cursor row; without that, it is
    "?".  The row r found gives "A" if r < 4 and "B" otherwise.  The
    first such entry is the one with the smallest row when the entries
    stand in increasing row order. *)
Theorem derive_vfo_insertion_order (m : Model) :
  (forall (before after : list (Z * Z)) (r st : Z),
      cursor_rows m = before ++ (r, st) :: after ->
      Forall (fun e => snd e = 0) before ->
      st <> 0 ->
      vfo_state (derive_vfo_from_cursors m) = (if r <? 4 then "A"%string else "B"%string))
  /\ (Forall (fun e => snd e = 0) (cursor_rows m) ->
      vfo_state (derive_vfo_from_cursors m)
      = match last_cursor_row m with
        | Some r => (if r <? 4 then "A"%string else "B"%string)
        | None => "?"%string
        end)
  /\ (StronglySorted Z.lt (map fst (cursor_rows m)) ->
      vfo_state (derive_vfo_from_cursors m)
      = vfo_by_smallest_row (cursor_rows m) (last_cursor_row m)).
Proof.
  split; [| split].
  - intros before after r st Hrows Hb Hst. unfold derive_vfo_from_cursors.
    rewrite Hrows, active_rows_split by assumption. reflexivity.
  - intros Hnone. unfold derive_vfo_from_cursors.
    rewrite active_rows_none by assumption. cbn [map].
    destruct (last_cursor_row m); reflexivity.
  - intros Hs. unfold derive_vfo_from_cursors, vfo_by_smallest_row.
    rewrite sorted_first_active_is_smallest by assumption.
    destruct (map fst (List.filter _ (cursor_rows m))) as [| r l]; cbn [head].
    + destruct (last_cursor_row m); reflexivity.
    + reflexivity.
Qed.

(** CURSOR packets for rows 5 (style 2) and 1 (style 1), in that order. *)
Lemma derive_vfo_insertion_order_witness :
  vfo_state
    (derive_vfo_from_cursors
       (process_events (Model_init 60)
          [EvPacket 7 5 2 0 0 []; EvPacket 7 1 1 0 0 []]))
  = "B"%string.
Proof.
  refine (proj1 (derive_vfo_insertion_order
                   (process_events (Model_init 60)
                      [EvPacket 7 5 2 0 0 []; EvPacket 7 1 1 0 0 []]))
                [] [(1, 1)] 5 2 _ _ _).
  - vm_compute. reflexivity.
  - constructor.
  - lia.
Defined.

(** C3 as first stated fails: the same two cursor entries give "B" or
    "A" depending on which CURSOR packet came first, and with row 5
    first the code answers "B" although the smallest row with a
    non-zero style is 1. *)
Lemma vfo_depends_on_cursor_arrival_order :
  vfo_state (process_events (Model_init 60)
               [EvPacket 7 5 2 0 0 []; EvPacket 7 1 1 0 0 []; EvPacket 6 0 0 0 0 []])
  = "B"%string
  /\ vfo_by_smallest_row [(5, 2); (1, 1)] (Some 1) = "A"%string
  /\ vfo_state (process_events (Model_init 60)
                  [EvPacket 7 1 1 0 0 []; EvPacket 7 5 2 0 0 []; EvPacket 6 0 0 0 0 []])
     = "A"%string.
Proof. repeat split; vm_compute; reflexivity. Qed.

(** The TEXT branch of [process_event], with the three scale cases
    read as one expression. *)
Lemma process_text_event (m : Model) (ui_t v1 v2 v3 lenb : Z) (data : list Z) :
  ui_t = 0 \/ ui_t = 1 \/ ui_t = 2 \/ ui_t = 3 ->
  process_event m (EvPacket ui_t v1 v2 v3 lenb data)
  = let x := fst (ui_unpack_xy v1 v2) in
    let row := text_row v1 v2 in
    let text := decode_ascii_replace data in
    let scale :=
      if ui_t =? 0 then 1.5%float
      else if ui_t =? 3 then 2.0%float
      else PrimFloat.div (float_of_int v3) 6.0%float in
    let m1 :=
      if (ui_t =? 3) && looks_like_freq text then
        if bool_decide (last_freq_by_row m !! row = Some text) then m
        else print (freq_line row text)
               (set_last_freq_by_row (<[row := text]> (last_freq_by_row m)) m)
      else m in
    draw_text {| x := x; row := row; scale := scale; text := text |}
      ("cell_" +:+ pretty ui_t +:+ "_" +:+ pretty row +:+ "_" +:+ pretty x) m1.
Proof.
  intros Hk. unfold process_event, text_row.
  destruct (ui_unpack_xy v1 v2) as [x row].
  destruct Hk as [-> | [-> | [-> | ->]]]; reflexivity.
Qed.

(** C7: a TEXT packet's column and base row come from subtracting 128
    from v1, and adding 1 to the row counter seeded from v2, as many
    times as it takes to bring v1 to at most 128 and no more; the cell
    is stored with that column, row = base row + 1 for each of the
    four kinds, and scale 1.5 (kind 0), 2.0 (kind 3) or v3 / 6.0
    (kinds 1, 2).  For v1 = 300, v2 = 2: x = 44, base row 4, row 5. *)
Theorem text_cell_coordinates (m : Model) (ui_t v1 v2 v3 lenb : Z) (data : list Z) :
  ui_t = 0 \/ ui_t = 1 \/ ui_t = 2 \/ ui_t = 3 ->
  (exists k : nat,
      fst (ui_unpack_xy v1 v2) = v1 - 128 * Z.of_nat k
      /\ snd (ui_unpack_xy v1 v2) = v2 + Z.of_nat k
      /\ fst (ui_unpack_xy v1 v2) <= 128
      /\ (k = 0%nat \/ 128 < fst (ui_unpack_xy v1 v2) + 128))
  /\ buffer (process_event m (EvPacket ui_t v1 v2 v3 lenb data))
       !! ("cell_" +:+ pretty ui_t +:+ "_" +:+ pretty (snd (ui_unpack_xy v1 v2) + 1)
             +:+ "_" +:+ pretty (fst (ui_unpack_xy v1 v2)))
     = Some {| x := fst (ui_unpack_xy v1 v2);
               row := snd (ui_unpack_xy v1 v2) + 1;
               scale := if ui_t =? 0 then 1.5%float
                        else if ui_t =? 3 then 2.0%float
                        else PrimFloat.div (float_of_int v3) 6.0%float;
               text := decode_ascii_replace data |}
  /\ ui_unpack_xy 300 2 = (44, 4)
  /\ text_row 300 2 = 5.
Proof.
  intros Hk. split; [| split; [| split]].
  - destruct (unpack_loop_spec v1 v2) as (k & Hx & Hrow & Hle & Hpos).
    exists k. unfold ui_unpack_xy. repeat split; try assumption. lia.
  - rewrite process_text_event by exact Hk. cbn zeta. unfold draw_text, text_row.
    cbn [buffer set_buffer]. apply lookup_insert_eq.
  - vm_compute. reflexivity.
  - vm_compute. reflexivity.
Qed.

(** A kind-3 packet with v1 = 300, v2 = 2 lands on row 5, column 44. *)
Lemma text_cell_coordinates_witness :
  buffer (process_event (Model_init 60) (EvPacket 3 300 2 0 3 [0x34; 0x2E; 0x35]))
    !! "cell_3_5_44"%string
  = Some {| x := 44; row := 5; scale := 2.0%float; text := "4.5" |}.
Proof.
  refine (eq_trans _
    (eq_trans
       (proj1 (proj2 (text_cell_coordinates (Model_init 60) 3 300 2 0 3
                        [0x34; 0x2E; 0x35] _)))
       _)).
  - vm_compute. reflexivity.
  - right; right; right; reflexivity.
  - vm_compute. reflexivity.
Defined.

(** What a TEXT packet does to the printed lines and to the frequency
    memory. *)
Lemma text_event_notification (m : Model) (ui_t v1 v2 v3 lenb : Z) (data : list Z) :
  ui_t = 0 \/ ui_t = 1 \/ ui_t = 2 \/ ui_t = 3 ->
  let row := text_row v1 v2 in
  let text := decode_ascii_replace data in
  let m' := process_event m (EvPacket ui_t v1 v2 v3 lenb data) in
  if (ui_t =? 3) && looks_like_freq text
     && negb (bool_decide (last_freq_by_row m !! row = Some text))
  then stdout m' = stdout m ++ [freq_line row text]
       /\ last_freq_by_row m' = <[row := text]> (last_freq_by_row m)
  else stdout m' = stdout m /\ last_freq_by_row m' = last_freq_by_row m.
Proof.
  intros Hk. cbn zeta. rewrite process_text_event by exact Hk. cbn zeta.
  unfold draw_text. cbn [stdout last_freq_by_row set_buffer].
  destruct ((ui_t =? 3) && looks_like_freq (decode_ascii_replace data));
    cbn [andb]; [| now split].
  destruct (bool_decide _); cbn [negb]; now split.
Qed.

Lemma freq_packet_step (m : Model) (r : Z) (t : string) (e : Event) :
  freq_packet r t e ->
  last_freq_by_row (process_event m e) !! r = Some t
  /\ stdout (process_event m e)
     = stdout m ++ (if bool_decide (last_freq_by_row m !! r = Some t)
                    then [] else [freq_line r t]).
Proof.
  intros (v1 & v2 & v3 & lenb & data & -> & Hrow & Htext & Hfreq).
  pose proof (text_event_notification m 3 v1 v2 v3 lenb data
                (or_intror (or_intror (or_intror eq_refl)))) as H.
  cbn zeta in H. rewrite Hrow, Htext, Hfreq in H. cbn [Z.eqb Pos.eqb andb] in H.
  destruct (bool_decide (last_freq_by_row m !! r = Some t)) eqn:Hmem; cbn [negb] in H.
  - destruct H as [-> ->]. apply bool_decide_eq_true in Hmem.
    split; [exact Hmem | now rewrite app_nil_r].
  - destruct H as [-> ->]. split; [apply lookup_insert_eq | reflexivity].
Qed.

(** C8: a TEXT packet prints a frequency-change line exactly when its
    kind is 3, its text has a decimal point and a digit, and the text
    is not the value remembered for its row; the line is tagged TOP
    for rows up to 2 and BOT otherwise, and the memory of that row
    takes the new text.  So from a memory that does not hold the text,
    two such packets with the same row and text print one line, a
    third prints none, and a following different text prints a
    second. *)
Theorem frequency_change_notification
    (m : Model) (ui_t v1 v2 v3 lenb : Z) (data : list Z) :
  ui_t = 0 \/ ui_t = 1 \/ ui_t = 2 \/ ui_t = 3 ->
  let row := text_row v1 v2 in
  let text := decode_ascii_replace data in
  let m' := process_event m (EvPacket ui_t v1 v2 v3 lenb data) in
  (ui_t = 3 /\ looks_like_freq text = true /\ last_freq_by_row m !! row <> Some text ->
   stdout m'
   = stdout m ++ ["FREQ " +:+ (if row <=? 2 then "TOP" else "BOT")
                    +:+ ": " +:+ text +:+ " MHz"]
   /\ last_freq_by_row m' = <[row := text]> (last_freq_by_row m))
  /\ (~ (ui_t = 3 /\ looks_like_freq text = true
         /\ last_freq_by_row m !! row <> Some text) ->
      stdout m' = stdout m /\ last_freq_by_row m' = last_freq_by_row m)
  /\ (forall (r : Z) (t t' : string) (e1 e2 e3 e4 : Event),
        freq_packet r t e1 -> freq_packet r t e2 -> freq_packet r t e3 ->
        freq_packet r t' e4 -> t' <> t ->
        last_freq_by_row m !! r <> Some t ->
        stdout (process_events m [e1; e2]) = stdout m ++ [freq_line r t]
        /\ stdout (process_events m [e1; e2; e3]) = stdout m ++ [freq_line r t]
        /\ stdout (process_events m [e1; e2; e3; e4])
           = stdout m ++ [freq_line r t; freq_line r t']).
Proof.
  intros Hk. cbn zeta.
  pose proof (text_event_notification m ui_t v1 v2 v3 lenb data Hk) as H.
  cbn zeta in H. split; [| split].
  - intros (-> & Hfreq & Hmem). rewrite Hfreq in H.
    rewrite (bool_decide_eq_false_2 _ Hmem) in H. exact H.
  - intros Hnot.
    destruct ((ui_t =? 3) && looks_like_freq (decode_ascii_replace data)
              && negb (bool_decide (last_freq_by_row m !! text_row v1 v2
                                    = Some (decode_ascii_replace data)))) eqn:Hc;
      [| exact H].
    exfalso. apply Hnot.
    apply andb_true_iff in Hc as [Hc Hmem]. apply andb_true_iff in Hc as [Hty Hfreq].
    apply Z.eqb_eq in Hty. apply negb_true_iff, bool_decide_eq_false in Hmem.
    now repeat split.
  - intros r t t' e1 e2 e3 e4 H1 H2 H3 H4 Hne Hmem. unfold process_events.
    cbn [fold_left].
    destruct (freq_packet_step m r t e1 H1) as [L1 S1].
    rewrite (bool_decide_eq_false_2 _ Hmem) in S1.
    destruct (freq_packet_step (process_event m e1) r t e2 H2) as [L2 S2].
    rewrite (bool_decide_eq_true_2 _ L1), app_nil_r in S2.
    destruct (freq_packet_step (process_event (process_event m e1) e2) r t e3 H3)
      as [L3 S3].
    rewrite (bool_decide_eq_true_2 _ L2), app_nil_r in S3.
    destruct (freq_packet_step
                (process_event (process_event (process_event m e1) e2) e3) r t' e4 H4)
      as [_ S4].
    rewrite bool_decide_eq_false_2 in S4 by congruence.
    rewrite S4, S3, S2, S1, <- app_assoc. repeat split; reflexivity.
Qed.

(** The first kind-3 frequency text on row 2 of a fresh screen. *)
Lemma frequency_change_notification_witness :
  stdout (process_event (Model_init 60) (EvPacket 3 0 1 0 7 [0x31; 0x34; 0x35; 0x2E; 0x35; 0x30; 0x30]))
  = ["FREQ TOP: 145.500 MHz"%string].
Proof.
  refine (eq_trans
    (proj1 (proj1 (frequency_change_notification (Model_init 60) 3 0 1 0 7
                     [0x31; 0x34; 0x35; 0x2E; 0x35; 0x30; 0x30] _) _)) _).
  - right; right; right; reflexivity.
  - split; [reflexivity | split; [vm_compute; reflexivity | vm_compute; discriminate]].
  - vm_compute. reflexivity.
Defined.

Lemma dict_pop_sublist (d : list (Z * Z)) (k : Z) : dict_pop d k `sublist_of` d.
Proof.
  induction d as [| [k' v'] d IH]; cbn; [constructor |].
  destruct (k' =? k); [now constructor | now constructor].
Qed.

Lemma delete_tags_subseteq (kill : list string) :
  forall b : gmap string DrawTextCmd,
    fold_left (fun b tag => delete tag b) kill b ⊆ b.
Proof.
  induction kill as [| tag kill IH]; intros b; cbn; [reflexivity |].
  etransitivity; [apply IH | apply delete_subseteq].
Qed.

(** [clear_cursor_rows] touches the cursor entries and their glyphs,
    nothing else. *)
Lemma pop_cursor_rows_frame (dead : list Z) :
  forall m : Model,
    let m' :=
      fold_left
        (fun m r =>
           let m := delete_tag ("cursor_" +:+ pretty r) m in
           set_cursor_rows (dict_pop (cursor_rows m) r) m)
        dead m in
    last_freq_by_row m' = last_freq_by_row m
    /\ stdout m' = stdout m
    /\ buffer m' ⊆ buffer m
    /\ cursor_rows m' `sublist_of` cursor_rows m
    /\ last_cursor_row m' = last_cursor_row m
    /\ vfo_state m' = vfo_state m
    /\ status_var m' = status_var m.
Proof.
  induction dead as [| r dead IH]; intros m; cbn zeta; cbn [fold_left].
  - repeat split; reflexivity.
  - specialize (IH (set_cursor_rows
                      (dict_pop (cursor_rows (delete_tag ("cursor_" +:+ pretty r) m)) r)
                      (delete_tag ("cursor_" +:+ pretty r) m))).
    cbn zeta in IH. destruct IH as (Hf & Hs & Hb & Hc & Hl & Hv & Hst).
    cbn in Hf, Hs, Hb, Hc, Hl, Hv, Hst.
    repeat split; try assumption.
    + etransitivity; [exact Hb | apply delete_subseteq].
    + etransitivity; [exact Hc | apply dict_pop_sublist].
Qed.

Lemma clear_cursor_rows_frame (y1 y2 : Z) (m : Model) :
  let m' := clear_cursor_rows y1 y2 m in
  last_freq_by_row m' = last_freq_by_row m
  /\ stdout m' = stdout m
  /\ buffer m' ⊆ buffer m
  /\ cursor_rows m' `sublist_of` cursor_rows m
  /\ last_cursor_row m' = last_cursor_row m
  /\ vfo_state m' = vfo_state m
  /\ status_var m' = status_var m.
Proof. unfold clear_cursor_rows. apply pop_cursor_rows_frame. Qed.

(** C10: a CLEAR packet removes cells and cursor entries and nothing
    else: the frequency memory is the same for every row, nothing is
    printed, and the last cursor row, the VFO and the status line
    stay.  So a kind-3 frequency packet whose text is the value
    remembered for its row before the CLEAR prints nothing after it. *)
Theorem clear_keeps_frequency_memory (m : Model) (y1 y2 v3 lenb : Z) (data : list Z) :
  let m' := process_event m (EvPacket 5 y1 y2 v3 lenb data) in
  last_freq_by_row m' = last_freq_by_row m
  /\ stdout m' = stdout m
  /\ buffer m' ⊆ buffer m
  /\ cursor_rows m' `sublist_of` cursor_rows m
  /\ last_cursor_row m' = last_cursor_row m
  /\ vfo_state m' = vfo_state m
  /\ status_var m' = status_var m
  /\ forall (r : Z) (t : string) (e : Event),
       freq_packet r t e ->
       last_freq_by_row m !! r = Some t ->
       stdout (process_event m' e) = stdout m.
Proof.
  cbn zeta. change (process_event m (EvPacket 5 y1 y2 v3 lenb data))
    with (clear_cursor_rows y1 y2 (clear_lines y1 y2 m)).
  pose proof (clear_cursor_rows_frame y1 y2 (clear_lines y1 y2 m)) as H.
  cbn zeta in H.
  set (m' := clear_cursor_rows y1 y2 (clear_lines y1 y2 m)) in *.
  destruct H as (Hf & Hs & Hb & Hc & Hl & Hv & Hst).
  unfold clear_lines in Hf, Hs, Hb, Hc, Hl, Hv, Hst.
  cbn [last_freq_by_row stdout buffer cursor_rows last_cursor_row vfo_state
       status_var set_buffer] in Hf, Hs, Hb, Hc, Hl, Hv, Hst.
  split; [exact Hf |]. split; [exact Hs |].
  split; [etransitivity; [exact Hb | apply delete_tags_subseteq] |].
  split; [exact Hc |]. split; [exact Hl |]. split; [exact Hv |].
  split; [exact Hst |].
  intros r t e He Hmem.
  destruct (freq_packet_step m' r t e He) as [_ Hout].
  rewrite Hout, Hf, Hs, (bool_decide_eq_true_2 _ Hmem). apply app_nil_r.
Qed.

(** The first 256 integers, the values a byte takes. *)
Lemma byte_cases (P : Z -> Prop) :
  Forall P (map Z.of_nat (seq 0 256)) -> forall L, 0 <= L <= 255 -> P L.
Proof.
  intros Hall L HL. apply (proj1 (List.Forall_forall _ _) Hall).
  replace L with (Z.of_nat (Z.to_nat L)) by lia.
  apply in_map, in_seq. lia.
Qed.

(** C9: for a length byte L the sample is volts = L * 0.04 capped at
    8.4 (the smaller of the two) and percent = L / 2.1 with no cap, so
    percent exceeds 100 from L = 211 on; L = 210 gives exactly 100.0
    percent, and L = 255 gives 8.4 volts although 255 * 0.04 is above
    it. *)
Theorem battery_sample (L : Z) :
  0 <= L <= 255 ->
  let raw := PrimFloat.mul (float_of_int L) 0.04%float in
  let volts := fst (decode_battery L) in
  let pct := snd (decode_battery L) in
  (if PrimFloat.leb raw 8.4%float then volts = raw else volts = 8.4%float)
  /\ PrimFloat.leb volts 8.4%float = true
  /\ pct = PrimFloat.div (float_of_int L) 2.1%float
  /\ PrimFloat.ltb 100%float pct = (210 <? L)
  /\ snd (decode_battery 210) = 100%float
  /\ fst (decode_battery 255) = 8.4%float
  /\ PrimFloat.ltb 8.4%float (PrimFloat.mul (float_of_int 255) 0.04%float) = true.
Proof.
  revert L. apply byte_cases. cbn zeta.
  repeat (apply Forall_cons_2;
          [vm_compute; repeat split | ]).
  apply Forall_nil_2.
Qed.

Lemma battery_sample_witness :
  fst (decode_battery 255) = 8.4%float /\ snd (decode_battery 210) = 100%float.
Proof.
  pose proof (battery_sample 255 ltac:(lia)) as H. cbn zeta in H.
  destruct H as (_ & _ & _ & _ & Hp & Hv & _). split; [exact Hv | exact Hp].
Defined.

End ScreenModelFacts.

(** ** The command channel *)

Section CommandChannelFacts.
Import CipherFrame CommandChannel.

Lemma crypt_involutive (b i : Z) : crypt (crypt b i) i = b.
Proof.
  unfold crypt. now rewrite Z.lxor_assoc, Z.lxor_nilpotent, Z.lxor_0_r.
Qed.

(** X1: encrypting a byte string and encrypting the result again from
    the same counter gives the string back; the cipher text is a byte
    string of the same length. *)
Theorem encrypt_round_trip (i : Z) (plain : list Z) :
  Forall is_byte plain ->
  exists enc,
    encrypt_from i plain = Ok enc
    /\ length enc = length plain
    /\ Forall is_byte enc
    /\ encrypt_from i enc = Ok plain.
Proof.
  intros Hp. revert i.
  induction Hp as [| b plain Hb Hp IH]; intros i.
  - exists []. repeat split; constructor.
  - destruct (IH (i + 1)) as (enc & Henc & Hlen & Hbytes & Hback).
    exists (crypt b i :: enc). cbn [encrypt_from length].
    rewrite bytearray_item_byte by (apply crypt_byte; exact Hb). cbn [pybind].
    rewrite Henc. cbn [pybind]. repeat split.
    + now rewrite Hlen.
    + constructor; [apply crypt_byte; exact Hb | exact Hbytes].
    + rewrite crypt_involutive, bytearray_item_byte by exact Hb. cbn [pybind].
      now rewrite Hback.
Qed.

Lemma encrypt_round_trip_witness :
  exists enc,
    encrypt_from 0 [0x01; 0x08; 0x02; 0x00; 0x2A; 0x00] = Ok enc
    /\ length enc = 6%nat
    /\ Forall is_byte enc
    /\ encrypt_from 0 enc = Ok [0x01; 0x08; 0x02; 0x00; 0x2A; 0x00].
Proof.
  apply (encrypt_round_trip 0 [0x01; 0x08; 0x02; 0x00; 0x2A; 0x00]).
  unfold is_byte. repeat constructor; lia.
Defined.

(** A byte that is no byte stops the encoder. *)
Lemma crypt_byte_inv (b i : Z) : is_byte (crypt b i) -> is_byte b.
Proof.
  intros H. rewrite <- (crypt_involutive b i). apply crypt_byte, H.
Qed.

Lemma wire_frame_length (c : Z) (p : list Z) :
  length (wire_frame c p) = (length p + 12)%nat.
Proof.
  unfold wire_frame, xor_with_key.
  rewrite !length_app, length_imap, length_app. unfold plain_record.
  rewrite !length_app. unfold le16. simpl length. lia.
Qed.

Lemma send_command_ok (ser : Serial) (c : Z) (p : list Z) :
  0 <= c < 65536 ->
  Forall is_byte p ->
  Z.of_nat (length p) <= 65531 ->
  send_command ser c p = Ok (ser_write ser (wire_frame c p)).
Proof.
  intros Hc Hp Hlen.
  destruct (send_command_up_to_length_field ser c p Hc Hp) as [_ ->]; [lia |].
  rewrite (to_bytes2_little_le16 (4 + Z.of_nat (length p))) by lia.
  reflexivity.
Qed.

Lemma send_keypress_ok (ser : Serial) (k : Z) :
  0 <= k < 65536 -> send_keypress ser k = Ok (ser_write ser (keypress_frame k)).
Proof.
  intros Hk. unfold send_keypress.
  rewrite to_bytes2_little_le16 by exact Hk. cbn [pybind].
  apply send_command_ok.
  - unfold PKT_KEYPRESS. lia.
  - apply le16_bytes, Hk.
  - cbn. lia.
Qed.

Lemma send_keypress_raises (ser : Serial) (k : Z) :
  ~ 0 <= k < 65536 -> send_keypress ser k = Raise OverflowError.
Proof.
  intros Hk. unfold send_keypress, to_bytes2_little.
  destruct (Z.leb_spec 0 k), (Z.ltb_spec k 65536); cbn; try reflexivity. lia.
Qed.

(** X2: [send_keypress] accepts exactly the key codes that are u16.
    It then writes one frame of 14 bytes that opens with AB CD 06 00
    and closes with DC BA; for any other key code it raises
    [OverflowError], and the result carries no write. *)
Theorem send_keypress_u16 (ser : Serial) (k : Z) :
  (0 <= k < 65536 ->
   exists body,
     send_keypress ser k
     = Ok (ser_write ser ([0xAB; 0xCD; 6; 0] ++ body ++ [0xDC; 0xBA]))
     /\ length body = 8%nat)
  /\ (~ 0 <= k < 65536 -> send_keypress ser k = Raise OverflowError).
Proof.
  split; [| apply send_keypress_raises].
  intros Hk. rewrite send_keypress_ok by exact Hk.
  exists (xor_with_key
            (plain_record PKT_KEYPRESS (le16 k)
               ++ le16 (crc16_plain (plain_record PKT_KEYPRESS (le16 k)) 0))).
  split; [reflexivity |].
  unfold xor_with_key. rewrite length_imap. reflexivity.
Qed.

Lemma keypress_ok (l : Line) (k : Z) :
  0 <= k < 65536 -> keypress l k = (wrote (keypress_frame k) l, None).
Proof. intros Hk. unfold keypress. now rewrite send_keypress_ok. Qed.









(** The handlers leave [down] to the code around them. *)
Lemma down_invoke (cfg : Config) (label : string) (k : Keyboard) :
  down (fst (invoke cfg label k)) = down k.
Proof. unfold invoke. now destruct (do_key cfg label (line k)). Qed.

Lemma down_on_line (f : Line -> Line * option raised) (k : Keyboard) :
  down (fst (on_line f k)) = down k.
Proof. unfold on_line. now destruct (f (line k)). Qed.

Lemma down_other_keys (cfg : Config) (k : Keyboard) (event : KeyEvent) :
  down (fst (other_keys cfg k event)) = down k.
Proof.
  unfold other_keys.
  repeat match goal with
         | |- context [if ?c then _ else _] => destruct c
         end;
    first [apply down_invoke | apply down_on_line | reflexivity].
Qed.

Lemma down_keypress_handler (cfg : Config) (k : Keyboard) (event : KeyEvent) :
  keycode event ∈ down (fst (keypress_handler cfg k event)).
Proof.
  unfold keypress_handler. case_bool_decide as Hin; [exact Hin |].
  destruct (normalize_digit_key event) as [d |];
    [case_bool_decide |];
    rewrite ?down_invoke, ?down_other_keys; cbn [down];
    apply elem_of_union_l, elem_of_singleton; reflexivity.
Qed.

(** X5: while a key is held, the repeated press events that carry its
    key code change nothing and write nothing: the first press is the
    only one handled. *)
Theorem held_key_is_handled_once (cfg : Config) (k : Keyboard) (e e' : KeyEvent) :
  keycode e' = keycode e ->
  keypress_handler cfg (fst (keypress_handler cfg k e)) e'
  = (fst (keypress_handler cfg k e), None).
Proof.
  intros Hsame. unfold keypress_handler at 1. rewrite Hsame.
  now rewrite (bool_decide_eq_true_2 _ (down_keypress_handler cfg k e)).
Qed.

Lemma held_key_is_handled_once_witness :
  keypress_handler (config_of_args 19 16 60)
    (fst (keypress_handler (config_of_args 19 16 60)
            {| line := {| port := {| written := [] |}; slept := [] |}; down := ∅ |}
            {| keycode := 16; keysym := "7"; char := "7" |}))
    {| keycode := 16; keysym := "7"; char := "7" |}
  = (fst (keypress_handler (config_of_args 19 16 60)
            {| line := {| port := {| written := [] |}; slept := [] |}; down := ∅ |}
            {| keycode := 16; keysym := "7"; char := "7" |}), None).
Proof.
  apply (held_key_is_handled_once (config_of_args 19 16 60)
           {| line := {| port := {| written := [] |}; slept := [] |}; down := ∅ |}
           {| keycode := 16; keysym := "7"; char := "7" |}
           {| keycode := 16; keysym := "7"; char := "7" |}).
  reflexivity.
Defined.

Lemma normalize_digit_key_keysym (e : KeyEvent) :
  normalize_digit_key e
  = normalize_digit_key {| keycode := 0; keysym := keysym e; char := "" |}.
Proof. reflexivity. Qed.




(** X7: the space bar holds PTT.  Its press, when it is not already
    held, writes the frame of the PTT hold key and nothing more (no
    pause, no release); its release writes the frame of the release
    key and frees the key; losing the focus while it is held also
    writes the release frame, and empties the set of held keys. *)
Theorem space_holds_ptt (cfg : Config) (k : Keyboard) (e : KeyEvent) (r : Z) :
  keysym e = "space"%string ->
  char e <> "#"%string ->
  char e <> "*"%string ->
  keycode e ∉ down k ->
  0 <= ptt_hold_key cfg < 65536 ->
  release_key cfg = Some r ->
  0 <= r < 65536 ->
  keypress_handler cfg k e
  = ({| line := wrote (keypress_frame (ptt_hold_key cfg)) (line k);
        down := {[keycode e]} ∪ down k |}, None)
  /\ keyrelease_handler cfg (fst (keypress_handler cfg k e)) e
     = ({| line := wrote (keypress_frame r)
                     (wrote (keypress_frame (ptt_hold_key cfg)) (line k));
           down := ({[keycode e]} ∪ down k) ∖ {[keycode e]} |}, None)
  /\ on_focus_out cfg (fst (keypress_handler cfg k e))
     = ({| line := wrote (keypress_frame r)
                     (wrote (keypress_frame (ptt_hold_key cfg)) (line k));
           down := ∅ |}, None).
Proof.
  intros Hks Hhash Hstar Hup Hptt Hrel Hr.
  assert (Hpress : keypress_handler cfg k e
                   = ({| line := wrote (keypress_frame (ptt_hold_key cfg)) (line k);
                         down := {[keycode e]} ∪ down k |}, None)).
  { unfold keypress_handler.
    rewrite (bool_decide_eq_false_2 _ Hup), normalize_digit_key_keysym, Hks.
    change (normalize_digit_key _) with (@None string). cbv iota.
    unfold other_keys.
    rewrite (proj2 (String.eqb_neq _ _) Hhash), (proj2 (String.eqb_neq _ _) Hstar), Hks.
    cbn [andb]. change (String.eqb "space" "Escape") with false.
    change (String.eqb "space" "Return") with false.
    change (String.eqb "space" "KP_Enter") with false.
    change (String.eqb "space" "space") with true. cbn [orb].
    unfold on_line, ptt_press. cbn [line down].
    now rewrite keypress_ok. }
  rewrite Hpress. cbn [fst]. split; [reflexivity |]. split.
  - unfold keyrelease_handler. rewrite Hks.
    change (String.eqb "space" "space") with true. cbv iota.
    unfold on_line, ptt_release. cbn [line down]. rewrite Hrel.
    now rewrite keypress_ok.
  - unfold on_focus_out, on_line, ptt_release. cbn [line down]. rewrite Hrel.
    now rewrite keypress_ok.
Qed.

Lemma space_holds_ptt_witness :
  keypress_handler (config_of_args 19 16 60)
    {| line := {| port := {| written := [] |}; slept := [] |}; down := ∅ |}
    {| keycode := 65; keysym := "space"; char := " " |}
  = ({| line := {| port := {| written := keypress_frame 16 |}; slept := [] |};
        down := {[65]} ∪ ∅ |}, None).
Proof.
  refine (eq_trans
    (proj1 (space_holds_ptt (config_of_args 19 16 60)
              {| line := {| port := {| written := [] |}; slept := [] |}; down := ∅ |}
              {| keycode := 65; keysym := "space"; char := " " |} 19
              _ _ _ _ _ _ _)) _).
  - reflexivity.
  - discriminate.
  - discriminate.
  - apply not_elem_of_empty.
  - cbn. lia.
  - reflexivity.
  - lia.
  - reflexivity.
Defined.



Lemma le16_inj (a b : Z) : le16 a = le16 b -> a = b.
Proof.
  unfold le16. intros [= Hm Hd].
  rewrite (Z.div_mod a 256), (Z.div_mod b 256) by lia. now rewrite Hm, Hd.
Qed.

Lemma xor_key_inj (f : nat -> nat) (l l' : list Z) :
  imap (fun i s => Z.lxor s (nth (f i) XOR_ARRAY 0)) l
  = imap (fun i s => Z.lxor s (nth (f i) XOR_ARRAY 0)) l' ->
  l = l'.
Proof.
  revert f l'. induction l as [| a l IH]; intros f [| a' l'] H;
    try reflexivity; try discriminate.
  cbn [imap] in H. injection H as Ha Hl. f_equal.
  - apply (f_equal (fun z => Z.lxor z (nth (f 0%nat) XOR_ARRAY 0))) in Ha.
    now rewrite !Z.lxor_assoc, !Z.lxor_nilpotent, !Z.lxor_0_r in Ha.
  - apply (IH (fun i => f (S i))). exact Hl.
Qed.

Lemma wire_frame_inj (c c' : Z) (p p' : list Z) :
  wire_frame c p = wire_frame c' p' -> c = c' /\ p = p'.
Proof.
  unfold wire_frame. cbv zeta. intros H.
  apply app_inv_head in H.
  apply app_inj_1 in H as [Hle Hrest]; [| reflexivity].
  assert (Hlen : length p = length p') by (apply le16_inj in Hle; lia).
  apply app_inv_tail in Hrest. apply (xor_key_inj (fun i => (i mod 16)%nat)) in Hrest.
  unfold plain_record in Hrest. rewrite <- !app_assoc in Hrest.
  apply app_inj_1 in Hrest as [Hc Hrest]; [| reflexivity].
  apply app_inj_1 in Hrest as [_ Hrest]; [| reflexivity].
  apply app_inj_1 in Hrest as [Hp _]; [| exact Hlen].
  split; [now apply le16_inj | exact Hp].
Qed.

(** X22: frames are unambiguous.  Two calls of [send_command] on the
    same port that both succeed, with u16 commands and byte payloads
    of at most 65531 bytes, write the same bytes only if they were
    given the same command and the same payload. *)
Theorem send_command_unambiguous (ser : Serial) (c c' : Z) (p p' : list Z) :
  0 <= c < 65536 -> 0 <= c' < 65536 ->
  Forall is_byte p -> Forall is_byte p' ->
  Z.of_nat (length p) <= 65531 -> Z.of_nat (length p') <= 65531 ->
  send_command ser c p = send_command ser c' p' ->
  c = c' /\ p = p'.
Proof.
  intros Hc Hc' Hp Hp' Hl Hl'.
  rewrite !send_command_ok by assumption. unfold ser_write.
  intros [= H]. apply app_inv_head in H. now apply wire_frame_inj.
Qed.

Lemma send_command_unambiguous_witness :
  PKT_KEYPRESS = PKT_KEYPRESS /\ [0x2A; 0] = [0x2A; 0].
Proof.
  apply (send_command_unambiguous {| written := [] |}
           PKT_KEYPRESS PKT_KEYPRESS [0x2A; 0] [0x2A; 0]);
    try (unfold PKT_KEYPRESS; lia);
    try (unfold is_byte; repeat constructor; lia);
    try (cbn; lia).
Defined.

End CommandChannelFacts.

(** ** More on the stream parser *)

Section StreamParserMore.
Import StreamParser.

Lemma feed_byte_feed (self : Parser) (q : list RawUiPacket) (b : Z) :
  feed_byte (self, q) b
  = (fst (feed self b),
     q ++ match snd (feed self b) with Some pk => [pk] | None => [] end).
Proof. unfold feed_byte. now destruct (feed self b). Qed.

(** X8: packets separated by line noise come out as sent.  When every
    packet is well formed and the bytes before each hold neither sync
    byte, a parser in [IDLE] emits exactly the packets, in order, adds
    them to the queue, and is back in [IDLE]. *)
Theorem packets_between_noise_round_trip (segments : list (list Z * RawUiPacket)) :
  Forall (fun seg => no_sync (fst seg) /\ well_formed (snd seg)) segments ->
  forall (self : Parser) (q : list RawUiPacket),
    stage self = IDLE ->
    snd (feed_chunk (self, q)
           (concat (map (fun seg => fst seg ++ ui_packet_bytes (snd seg)) segments)))
    = q ++ map snd segments
    /\ stage (fst (feed_chunk (self, q)
                     (concat (map (fun seg => fst seg ++ ui_packet_bytes (snd seg))
                                  segments))))
       = IDLE.
Proof.
  induction 1 as [| [noise pk] segments [Hnoise Hwf] Hrest IH]; intros self q Hidle.
  - cbn. now rewrite app_nil_r.
  - cbn [map concat fst snd] in *.
    rewrite !feed_chunk_app, (idle_drops_noise noise Hnoise self q Hidle).
    destruct (idle_parses_packet pk self q Hwf Hidle) as (self' & -> & Hidle').
    destruct (IH self' (q ++ [pk]) Hidle') as [Hq Hst].
    rewrite Hq, Hst, <- app_assoc. now split.
Qed.

Lemma packets_between_noise_round_trip_witness :
  snd (feed_chunk Reader_init
         ([0x00; 0xDC; 0xBA] ++ [0xB5; 7; 1; 2; 0; 0] ++ [] ++ [0xB5; 6; 0; 0; 0; 200]))
  = [{| kind := 7; pkt_v1 := 1; pkt_v2 := 2; pkt_v3 := 0; declaredLen := 0; data := [] |};
     {| kind := 6; pkt_v1 := 0; pkt_v2 := 0; pkt_v3 := 0; declaredLen := 200; data := [] |}].
Proof.
  refine (eq_trans _
    (proj1 (packets_between_noise_round_trip
              [([0x00; 0xDC; 0xBA],
                {| kind := 7; pkt_v1 := 1; pkt_v2 := 2; pkt_v3 := 0;
                   declaredLen := 0; data := [] |});
               ([],
                {| kind := 6; pkt_v1 := 0; pkt_v2 := 0; pkt_v3 := 0;
                   declaredLen := 200; data := [] |})]
              _ Parser_init [] eq_refl))).
  - reflexivity.
  - repeat constructor; cbn; lia.
Defined.

Lemma parser_inv_init : parser_inv Parser_init.
Proof.
  unfold parser_inv, Parser_init, is_byte. cbn.
  repeat split; try lia; try constructor; discriminate.
Qed.

(** One byte keeps [parser_inv], and a packet emitted on it is a
    [byte_packet]. *)
Lemma feed_keeps_inv (self : Parser) (b : Z) :
  parser_inv self ->
  is_byte b ->
  parser_inv (fst (feed self b))
  /\ forall pk, snd (feed self b) = Some pk -> byte_packet pk.
Proof.
  destruct self as [st pl pc ty a1 a2 a3 ul buf need].
  unfold parser_inv, byte_packet, well_formed, feed.
  cbn [stage p_len p_cnt ui_type v1 v2 v3 ui_len ui_buf ui_need].
  intros (Ht & H1 & H2 & H3 & Hl & Hbuf & Hlen & Hdata) Hb.
  destruct st;
    try (cbn;
         repeat match goal with
                | |- context [if ?c then _ else _] => destruct c
                end;
         cbn; repeat split; intros; try assumption; try discriminate;
         unfold is_byte in *; lia).
  - (* UI_LEN *)
    cbn. destruct (Z.eqb_spec ty 6) as [Hty | Hty]; cbn.
    + split.
      * repeat split; intros; try assumption; try constructor; try discriminate;
          cbn; unfold is_byte in *; lia.
      * intros pk [= <-]. cbn. rewrite (proj2 (Z.eqb_eq ty 6) Hty).
        repeat split; try assumption; try constructor; unfold is_byte in *; lia.
    + destruct (Z.eqb_spec b 0) as [Hb0 | Hb0]; cbn.
      * split.
        -- repeat split; intros; try assumption; try constructor;
             try discriminate; cbn; unfold is_byte in *; lia.
        -- intros pk [= <-]. cbn. rewrite (proj2 (Z.eqb_neq ty 6) Hty).
           repeat split; try assumption; try constructor;
             unfold is_byte in *; lia.
      * split; [| intros pk; discriminate].
        repeat split; intros; try assumption; try constructor; cbn;
          unfold is_byte in *; lia.
  - (* UI_DATA *)
    destruct (Hdata eq_refl) as (Hty & Hneed & Hroom). subst need.
    assert (Hbuf' : Forall is_byte (buf ++ [b]))
      by (apply Forall_app_2; [exact Hbuf | now constructor]).
    assert (Hlen' : length (buf ++ [b]) = S (length buf))
      by (rewrite length_app; cbn; lia).
    cbn. destruct (Z.leb_spec ul (Z.of_nat (length (buf ++ [b])))) as [Hfull | Hmore];
      cbn.
    + split.
      * repeat split; intros; try assumption; try discriminate;
          unfold is_byte in *; lia.
      * intros pk [= <-]. cbn. rewrite (proj2 (Z.eqb_neq ty 6) Hty).
        repeat split; try assumption; unfold is_byte in *; lia.
    + split; [| intros pk; discriminate].
      repeat split; intros; try assumption; unfold is_byte in *; lia.
Qed.

Lemma feed_chunk_keeps_inv (bytes : list Z) :
  Forall is_byte bytes ->
  forall (self : Parser) (q : list RawUiPacket),
    parser_inv self ->
    Forall byte_packet q ->
    parser_inv (fst (feed_chunk (self, q) bytes))
    /\ Forall byte_packet (snd (feed_chunk (self, q) bytes)).
Proof.
  induction 1 as [| b bytes Hb Hbytes IH]; intros self q Hinv Hq;
    [now split |].
  cbn [feed_chunk fold_left]. rewrite feed_byte_feed.
  destruct (feed_keeps_inv self b Hinv Hb) as [Hinv' Hpk].
  apply IH; [exact Hinv' |].
  apply Forall_app_2; [exact Hq |].
  destruct (snd (feed self b)) as [pk |]; [| constructor].
  constructor; [now apply Hpk | constructor].
Qed.

(** X9: whatever bytes arrive, however garbled, every packet the
    parser emits carries exactly the number of data bytes the parser
    waited for (none for kind 6, [declaredLen] otherwise), and its
    fields and data are bytes. *)
Theorem emitted_packets_are_well_formed (bytes : list Z) :
  Forall is_byte bytes ->
  Forall (fun pk =>
            Z.of_nat (length (data pk))
            = (if kind pk =? 6 then 0 else declaredLen pk)
            /\ is_byte (kind pk) /\ is_byte (pkt_v1 pk) /\ is_byte (pkt_v2 pk)
            /\ is_byte (pkt_v3 pk) /\ is_byte (declaredLen pk)
            /\ Forall is_byte (data pk))
         (snd (feed_chunk Reader_init bytes)).
Proof.
  intros Hb.
  apply (feed_chunk_keeps_inv bytes Hb Parser_init [] parser_inv_init).
  constructor.
Qed.

Lemma emitted_packets_are_well_formed_witness :
  Forall (fun pk =>
            Z.of_nat (length (data pk))
            = (if kind pk =? 6 then 0 else declaredLen pk)
            /\ is_byte (kind pk) /\ is_byte (pkt_v1 pk) /\ is_byte (pkt_v2 pk)
            /\ is_byte (pkt_v3 pk) /\ is_byte (declaredLen pk)
            /\ Forall is_byte (data pk))
         (snd (feed_chunk Reader_init [0xB5; 0xB5; 0; 1; 2; 3; 1; 0x41; 0xFF])).
Proof.
  apply (emitted_packets_are_well_formed [0xB5; 0xB5; 0; 1; 2; 3; 1; 0x41; 0xFF]).
  unfold is_byte. repeat constructor; lia.
Defined.

(** X10: the parser never buffers more than 255 data bytes, whatever
    the byte stream and wherever it is cut. *)
Theorem data_buffer_is_bounded (bytes : list Z) :
  Forall is_byte bytes ->
  (length (ui_buf (fst (feed_chunk Reader_init bytes))) <= 255)%nat.
Proof.
  intros Hb.
  destruct (feed_chunk_keeps_inv bytes Hb Parser_init [] parser_inv_init
              (Forall_nil_2 _)) as [Hinv _].
  apply Hinv.
Qed.

Lemma data_buffer_is_bounded_witness :
  (length (ui_buf (fst (feed_chunk Reader_init
                          ([0xB5; 0; 0; 0; 0; 0xFF]%Z ++ repeat 0x41%Z 200))))
   <= 255)%nat.
Proof.
  apply (data_buffer_is_bounded ([0xB5; 0; 0; 0; 0; 0xFF] ++ repeat 0x41 200)).
  apply Forall_app_2.
  - unfold is_byte. repeat constructor; lia.
  - apply List.Forall_forall. intros b Hb. apply repeat_spec in Hb as ->.
    unfold is_byte. lia.
Defined.

(** The two length bytes assemble to lo + 256 * hi. *)
Lemma lor_shiftl_8 (lo hi : Z) :
  is_byte lo -> 0 <= hi -> Z.lor lo (Z.shiftl hi 8) = lo + 256 * hi.
Proof.
  unfold is_byte. intros Hlo Hhi.
  assert (Hdisj : Z.land lo (Z.shiftl hi 8) = 0).
  { apply Z.bits_inj'. intros n Hn. rewrite Z.land_spec, Z.bits_0.
    destruct (Z.lt_ge_cases n 8) as [Hlt | Hge].
    - rewrite (Z.shiftl_spec_low hi 8 n Hlt). apply andb_false_r.
    - rewrite <- (Z.mod_small lo (2 ^ 8)) by (change (2 ^ 8) with 256; lia).
      rewrite Z.mod_pow2_bits_high by lia. reflexivity. }
  rewrite <- Z.lxor_lor by exact Hdisj.
  rewrite <- Z.add_nocarry_lxor by exact Hdisj.
  rewrite Z.shiftl_mul_pow2 by lia. change (2 ^ 8) with 256. lia.
Qed.

(** [DATA] counts [p_len] bytes, whatever they are, and moves on. *)
Lemma data_stage_counts (content : list Z) :
  forall (self : Parser) (q : list RawUiPacket),
    stage self = DATA ->
    content <> [] ->
    p_cnt self + Z.of_nat (length content) = p_len self ->
    feed_chunk (self, q) content
    = (set_stage CRC_LSB (set_p_cnt (p_len self) self), q).
Proof.
  induction content as [| b content IH]; intros self q Hst Hne Hlen; [congruence |].
  cbn [feed_chunk fold_left]. rewrite feed_byte_feed. unfold feed. rewrite Hst.
  cbn [p_len p_cnt set_p_cnt]. destruct content as [| b' content].
  - cbn [length] in Hlen.
    replace (p_cnt self + 1) with (p_len self) by lia.
    rewrite Z.leb_refl. cbn. now rewrite app_nil_r.
  - destruct (Z.leb_spec (p_len self) (p_cnt self + 1)) as [Hle | _].
    + cbn [length] in Hlen. lia.
    + cbn [fst snd]. rewrite app_nil_r.
      change (fold_left feed_byte (b' :: content) ?r) with (feed_chunk r (b' :: content)).
      rewrite IH; cbn [stage p_len p_cnt set_p_cnt].
      * reflexivity.
      * exact Hst.
      * discriminate.
      * cbn [length] in *. lia.
Qed.

Lemma feed_byte_quiet (self : Parser) (q : list RawUiPacket) (b : Z) :
  snd (feed self b) = None -> feed_byte (self, q) b = (fst (feed self b), q).
Proof. intros H. rewrite feed_byte_feed, H. now rewrite app_nil_r. Qed.

Lemma ack_frame_skipped (self : Parser) (q : list RawUiPacket)
    (lo hi c1 c2 x : Z) (content : list Z) :
  stage self = IDLE ->
  is_byte lo -> 0 <= hi ->
  content <> [] ->
  Z.of_nat (length content) = lo + 256 * hi ->
  exists self',
    feed_chunk (self, q) ([0xAB; 0xCD; lo; hi] ++ content ++ [c1; c2; 0xDC; x])
    = (self', q)
    /\ stage self' = IDLE.
Proof.
  intros Hidle Hlo Hhi Hne Hlen. rewrite !feed_chunk_app.
  destruct self as [st pl pc ty a1 a2 a3 ul buf need].
  cbn [stage] in Hidle. subst st.
  assert (Hhdr : feed_chunk ({| stage := IDLE; p_len := pl; p_cnt := pc;
                                ui_type := ty; v1 := a1; v2 := a2; v3 := a3;
                                ui_len := ul; ui_buf := buf; ui_need := need |}, q)
                   [0xAB; 0xCD; lo; hi]
                 = ({| stage := DATA; p_len := Z.lor lo (Z.shiftl hi 8); p_cnt := 0;
                       ui_type := ty; v1 := a1; v2 := a2; v3 := a3;
                       ui_len := ul; ui_buf := buf; ui_need := need |}, q)).
  { cbn [feed_chunk fold_left].
    do 4 (rewrite feed_byte_quiet by reflexivity). vm_compute. reflexivity. }
  rewrite Hhdr, lor_shiftl_8 by assumption.
  rewrite data_stage_counts; cbn [stage p_len p_cnt]; try assumption;
    try reflexivity; try lia.
  cbn [feed_chunk fold_left].
  do 4 (rewrite feed_byte_quiet by reflexivity).
  eexists. split; [reflexivity | vm_compute; reflexivity].
Qed.

(** X11: a command-acknowledgement frame with at least one content
    byte is skipped whole.  After AB CD and the two length bytes the
    parser counts lo + 256 * hi content bytes without looking at them,
    so sync bytes inside the content start nothing; it then takes two
    CRC bytes unchecked, the DC byte and one more byte of any value,
    emits nothing, and is back in [IDLE]. *)
Theorem command_frame_is_skipped (self : Parser) (q : list RawUiPacket)
    (lo hi c1 c2 x : Z) (content : list Z) :
  stage self = IDLE ->
  is_byte lo -> is_byte hi ->
  content <> [] ->
  Z.of_nat (length content) = lo + 256 * hi ->
  snd (feed_chunk (self, q) ([0xAB; 0xCD; lo; hi] ++ content ++ [c1; c2; 0xDC; x]))
  = q
  /\ stage (fst (feed_chunk (self, q)
                   ([0xAB; 0xCD; lo; hi] ++ content ++ [c1; c2; 0xDC; x])))
     = IDLE.
Proof.
  intros Hidle Hlo Hhi Hne Hlen.
  destruct (ack_frame_skipped self q lo hi c1 c2 x content Hidle Hlo
              (proj1 Hhi) Hne Hlen) as (self' & -> & Hst).
  now split.
Qed.

(** A frame whose content is a whole UI packet: nothing is emitted. *)
Lemma command_frame_is_skipped_witness :
  snd (feed_chunk Reader_init
         ([0xAB; 0xCD; 6; 0] ++ [0xB5; 6; 0; 0; 0; 200] ++ [0x11; 0x22; 0xDC; 0x00]))
  = [].
Proof.
  refine (proj1 (command_frame_is_skipped Parser_init [] 6 0 0x11 0x22 0x00
                   [0xB5; 6; 0; 0; 0; 200] eq_refl _ _ _ _)).
  - unfold is_byte; lia.
  - unfold is_byte; lia.
  - discriminate.
  - reflexivity.
Defined.

Lemma feed_step_rate (self : Parser) (b : Z) :
  (6 * length (match snd (feed self b) with Some pk => [pk] | None => [] end)
   + consumed (stage (fst (feed self b)))
   <= consumed (stage self) + 1)%nat.
Proof.
  unfold feed. destruct (stage self) eqn:Hst;
    repeat match goal with
           | |- context [if ?c then _ else _] => destruct c
           end;
    cbn; rewrite ?Hst; cbn; lia.
Qed.

Lemma feed_chunk_rate (bytes : list Z) :
  forall (self : Parser) (q : list RawUiPacket),
    (6 * length (snd (feed_chunk (self, q) bytes))
     + consumed (stage (fst (feed_chunk (self, q) bytes)))
     <= 6 * length q + consumed (stage self) + length bytes)%nat.
Proof.
  induction bytes as [| b bytes IH]; intros self q; [cbn; lia |].
  cbn [feed_chunk fold_left]. rewrite feed_byte_feed.
  change (fold_left feed_byte bytes ?r) with (feed_chunk r bytes).
  etransitivity; [apply IH |].
  pose proof (feed_step_rate self b). rewrite length_app. cbn [length]. lia.
Qed.

(** X12: on any input the parser emits at most one packet per six
    bytes fed: an emission always follows a sync byte and five header
    bytes of its own. *)
Theorem at_most_one_packet_per_six_bytes (bytes : list Z) :
  (6 * length (snd (feed_chunk Reader_init bytes)) <= length bytes)%nat.
Proof.
  pose proof (feed_chunk_rate bytes Parser_init []) as H.
  cbn [length consumed stage Parser_init] in H. unfold Reader_init. lia.
Qed.

End StreamParserMore.

(** ** More on the screen model *)

Section ScreenModelMore.
Import ScreenModel.

(** *** The branches of [process_event] *)

Lemma process_clear_event (m : Model) (y1 y2 v3 lenb : Z) (data : list Z) :
  process_event m (EvPacket 5 y1 y2 v3 lenb data)
  = clear_cursor_rows y1 y2 (clear_lines y1 y2 m).
Proof. reflexivity. Qed.

Lemma process_status_event (m : Model) (v1 v2 v3 lenb : Z) (data : list Z) :
  process_event m (EvPacket 6 v1 v2 v3 lenb data)
  = set_status
      (StatusLine (vfo_state (derive_vfo_from_cursors m)) v1 v2
         (fst (decode_battery lenb)) (snd (decode_battery lenb))
         (keydown_ms (derive_vfo_from_cursors m)))
      (derive_vfo_from_cursors m).
Proof.
  unfold process_event. cbn [Z.eqb Pos.eqb].
  now destruct (decode_battery lenb).
Qed.

Lemma process_cursor_event (m : Model) (r st v3 lenb : Z) (data : list Z) :
  process_event m (EvPacket 7 r st v3 lenb data)
  = draw_text {| x := 0; row := r; scale := 1.0%float;
                 text := if st =? 0 then "▻" else "➤" |}
      ("cursor_" +:+ pretty r)
      (set_last_cursor_row (Some r)
         (set_cursor_rows (dict_set (cursor_rows m) r st) m)).
Proof. reflexivity. Qed.

Lemma process_other_event (m : Model) (ui_t v1 v2 v3 lenb : Z) (data : list Z) :
  ~ 0 <= ui_t <= 7 \/ ui_t = 4 ->
  process_event m (EvPacket ui_t v1 v2 v3 lenb data) = m.
Proof.
  intros Hk. unfold process_event.
  repeat match goal with
         | |- context [?a =? ?b] =>
             destruct (Z.eqb_spec a b); [exfalso; lia |]
         end.
  reflexivity.
Qed.

(** The kinds a packet can have, by branch. *)
Lemma kind_cases (ui_t : Z) :
  ui_t = 5 \/ ui_t = 6 \/ ui_t = 7
  \/ (ui_t = 0 \/ ui_t = 1 \/ ui_t = 2 \/ ui_t = 3)
  \/ (~ 0 <= ui_t <= 7 \/ ui_t = 4).
Proof. lia. Qed.

Lemma derive_vfo_sets_vfo (m : Model) :
  exists w, derive_vfo_from_cursors m = set_vfo_state w m.
Proof.
  unfold derive_vfo_from_cursors.
  destruct (map fst _) as [| r l]; [destruct (last_cursor_row m) |]; eauto.
Qed.

Lemma derive_vfo_frame (m : Model) :
  buffer (derive_vfo_from_cursors m) = buffer m
  /\ cursor_rows (derive_vfo_from_cursors m) = cursor_rows m
  /\ last_cursor_row (derive_vfo_from_cursors m) = last_cursor_row m
  /\ last_freq_by_row (derive_vfo_from_cursors m) = last_freq_by_row m
  /\ stdout (derive_vfo_from_cursors m) = stdout m
  /\ keydown_ms (derive_vfo_from_cursors m) = keydown_ms m
  /\ status_var (derive_vfo_from_cursors m) = status_var m.
Proof.
  destruct (derive_vfo_sets_vfo m) as [w ->]. repeat split; reflexivity.
Qed.

(** What an event does to the frequency memory and to the printed
    lines: nothing, or one frequency-like text remembered and its line
    printed. *)
Lemma event_memory_step (m : Model) (e : Event) :
  (last_freq_by_row (process_event m e) = last_freq_by_row m
   /\ stdout (process_event m e) = stdout m)
  \/ exists r t,
       looks_like_freq t = true
       /\ last_freq_by_row (process_event m e) = <[r := t]> (last_freq_by_row m)
       /\ stdout (process_event m e) = stdout m ++ [freq_line r t].
Proof.
  destruct e as [msg | ui_t v1 v2 v3 lenb data]; [left; now split |].
  destruct (kind_cases ui_t) as [-> | [-> | [-> | [Htext | Hother]]]].
  - left. rewrite process_clear_event.
    pose proof (clear_cursor_rows_frame v1 v2 (clear_lines v1 v2 m)) as H.
    cbn zeta in H. destruct H as (Hf & Hs & _). now rewrite Hf, Hs.
  - left. rewrite process_status_event. cbn [last_freq_by_row stdout set_status].
    destruct (derive_vfo_frame m) as (_ & _ & _ & Hf & Hs & _). now split.
  - left. now split.
  - pose proof (text_event_notification m ui_t v1 v2 v3 lenb data Htext) as H.
    cbn zeta in H.
    destruct ((ui_t =? 3) && looks_like_freq (decode_ascii_replace data)) eqn:Hc;
      cbn [andb] in H; [| left; now split].
    destruct (negb _); [| left; now split].
    right. exists (text_row v1 v2), (decode_ascii_replace data).
    apply andb_true_iff in Hc as [_ Hfreq]. destruct H as [Hs Hf]. now repeat split.
  - left. now rewrite process_other_event.
Qed.

Lemma memory_inv_step (m : Model) (e : Event) :
  (forall r t, last_freq_by_row m !! r = Some t ->
     looks_like_freq t = true /\ In (freq_line r t) (stdout m)) ->
  forall r t, last_freq_by_row (process_event m e) !! r = Some t ->
    looks_like_freq t = true /\ In (freq_line r t) (stdout (process_event m e)).
Proof.
  intros Hinv r t.
  destruct (event_memory_step m e) as [[-> ->] | (r' & t' & Hfreq & -> & ->)].
  - apply Hinv.
  - destruct (decide (r' = r)) as [-> | Hne].
    + rewrite lookup_insert_eq. intros [= <-]. split; [exact Hfreq |].
      apply in_or_app. right. now left.
    + rewrite lookup_insert_ne by exact Hne. intros Hm.
      destruct (Hinv r t Hm) as [Hf Hin]. split; [exact Hf |].
      apply in_or_app. now left.
Qed.

(** X14: the frequency memory holds only texts that look like a
    frequency, and every remembered text was announced: its FREQ line,
    with the tag of its row, is among the printed lines. *)
Theorem remembered_frequencies_were_printed
    (keydown : Z) (evts : list Event) (r : Z) (t : string) :
  last_freq_by_row (process_events (Model_init keydown) evts) !! r = Some t ->
  looks_like_freq t = true
  /\ In (freq_line r t) (stdout (process_events (Model_init keydown) evts)).
Proof.
  revert r t. unfold process_events.
  induction evts as [| e evts IH] using rev_ind; intros r t.
  - cbn. rewrite lookup_empty. discriminate.
  - rewrite fold_left_app. cbn [fold_left]. apply memory_inv_step. exact IH.
Qed.

Lemma remembered_frequencies_were_printed_witness :
  looks_like_freq "145.500" = true
  /\ In (freq_line 2 "145.500")
       (stdout (process_events (Model_init 60)
                  [EvPacket 3 0 1 0 7 [0x31; 0x34; 0x35; 0x2E; 0x35; 0x30; 0x30];
                   EvPacket 5 0 7 0 0 []])).
Proof.
  apply (remembered_frequencies_were_printed 60
           [EvPacket 3 0 1 0 7 [0x31; 0x34; 0x35; 0x2E; 0x35; 0x30; 0x30];
            EvPacket 5 0 7 0 0 []] 2 "145.500").
  vm_compute. reflexivity.
Defined.

(** What a TEXT packet leaves alone. *)
Lemma text_event_frame (m : Model) (ui_t v1 v2 v3 lenb : Z) (data : list Z) :
  ui_t = 0 \/ ui_t = 1 \/ ui_t = 2 \/ ui_t = 3 ->
  cursor_rows (process_event m (EvPacket ui_t v1 v2 v3 lenb data)) = cursor_rows m
  /\ last_cursor_row (process_event m (EvPacket ui_t v1 v2 v3 lenb data))
     = last_cursor_row m
  /\ vfo_state (process_event m (EvPacket ui_t v1 v2 v3 lenb data)) = vfo_state m.
Proof.
  intros Hk. rewrite process_text_event by exact Hk. cbn zeta.
  destruct ((ui_t =? 3) && _); [destruct (bool_decide _) |]; repeat split.
Qed.

Lemma last_cursor_row_step (m : Model) (e : Event) :
  last_cursor_row (process_event m e) = last_cursor_row m
  \/ exists r, last_cursor_row (process_event m e) = Some r.
Proof.
  destruct e as [msg | ui_t v1 v2 v3 lenb data]; [now left |].
  destruct (kind_cases ui_t) as [-> | [-> | [-> | [Htext | Hother]]]].
  - left. rewrite process_clear_event.
    pose proof (clear_cursor_rows_frame v1 v2 (clear_lines v1 v2 m)) as H.
    cbn zeta in H. destruct H as (_ & _ & _ & _ & Hl & _). now rewrite Hl.
  - left. rewrite process_status_event. cbn [last_cursor_row set_status].
    apply derive_vfo_frame.
  - right. now exists v1.
  - left. now apply text_event_frame.
  - left. now rewrite process_other_event.
Qed.

Lemma last_cursor_row_sticky (evts : list Event) :
  forall m, is_Some (last_cursor_row m) ->
            is_Some (last_cursor_row (process_events m evts)).
Proof.
  unfold process_events.
  induction evts as [| e evts IH]; intros m Hm; [exact Hm |].
  cbn [fold_left]. apply IH.
  destruct (last_cursor_row_step m e) as [-> | [r ->]]; [exact Hm | eauto].
Qed.

Lemma derive_vfo_known (m : Model) :
  is_Some (last_cursor_row m) ->
  vfo_state (derive_vfo_from_cursors m) = "A"%string
  \/ vfo_state (derive_vfo_from_cursors m) = "B"%string.
Proof.
  intros [r Hr]. unfold derive_vfo_from_cursors. rewrite Hr.
  destruct (map fst _) as [| r' l]; cbn [vfo_state set_vfo_state]; unfold vfo_of_row.
  - destruct (r <? 4); auto.
  - destruct (r' <? 4); auto.
Qed.

(** X15: once a CURSOR packet has been processed, the VFO is never
    undetermined again: whatever follows, CLEAR packets that remove
    every cursor entry included, each later STATUS packet sets the VFO
    to "A" or "B", and shows that value on the status line. *)
Theorem vfo_known_after_first_cursor
    (m : Model) (r st c3 clen : Z) (cdata : list Z) (evts : list Event)
    (f1 f2 s3 L : Z) (sdata : list Z) :
  let m' := process_events m
              (EvPacket 7 r st c3 clen cdata :: evts
                 ++ [EvPacket 6 f1 f2 s3 L sdata]) in
  (vfo_state m' = "A"%string \/ vfo_state m' = "B"%string)
  /\ exists volts pct keydown,
       status_var m' = StatusLine (vfo_state m') f1 f2 volts pct keydown.
Proof.
  cbn zeta. unfold process_events. cbn [fold_left]. rewrite fold_left_app.
  cbn [fold_left]. fold (process_events (process_event m (EvPacket 7 r st c3 clen cdata)) evts).
  set (m1 := process_events _ evts).
  assert (Hseen : is_Some (last_cursor_row m1)).
  { apply last_cursor_row_sticky. rewrite process_cursor_event. cbn. eauto. }
  rewrite process_status_event. cbn [vfo_state status_var set_status].
  split; [now apply derive_vfo_known | eauto].
Qed.

(** *** The cursor dictionary *)

Lemma dict_set_keys (d : list (Z * Z)) (k v x : Z) :
  x ∈ map fst (dict_set d k v) <-> x = k \/ x ∈ map fst d.
Proof.
  induction d as [| [k' v'] d IH]; cbn.
  - rewrite list_elem_of_singleton. split; [auto | intros [H | H]; [exact H |]].
    now apply elem_of_nil in H.
  - destruct (Z.eqb_spec k' k) as [-> | Hne]; cbn; rewrite !elem_of_cons.
    + tauto.
    + rewrite IH. tauto.
Qed.

Lemma dict_set_NoDup (d : list (Z * Z)) (k v : Z) :
  NoDup (map fst d) -> NoDup (map fst (dict_set d k v)).
Proof.
  induction d as [| [k' v'] d IH]; cbn; intros Hnd.
  - apply NoDup_singleton.
  - apply NoDup_cons in Hnd as [Hnotin Hnd].
    destruct (Z.eqb_spec k' k) as [-> | Hne]; cbn.
    + apply NoDup_cons. now split.
    + apply NoDup_cons. split; [| now apply IH].
      rewrite dict_set_keys. intros [-> | Hin]; [now apply Hne | now apply Hnotin].
Qed.

Lemma cursor_keys_step (m : Model) (e : Event) :
  NoDup (map fst (cursor_rows m)) ->
  NoDup (map fst (cursor_rows (process_event m e))).
Proof.
  intros Hnd. destruct e as [msg | ui_t v1 v2 v3 lenb data]; [exact Hnd |].
  destruct (kind_cases ui_t) as [-> | [-> | [-> | [Htext | Hother]]]].
  - rewrite process_clear_event.
    pose proof (clear_cursor_rows_frame v1 v2 (clear_lines v1 v2 m)) as H.
    cbn zeta in H. destruct H as (_ & _ & _ & Hsub & _).
    apply (sublist_NoDup _ (map fst (cursor_rows m))); [exact Hnd |].
    change (cursor_rows (clear_lines v1 v2 m)) with (cursor_rows m) in Hsub.
    now apply (fmap_sublist fst).
  - rewrite process_status_event. cbn [cursor_rows set_status].
    destruct (derive_vfo_frame m) as (_ & -> & _). exact Hnd.
  - rewrite process_cursor_event. cbn. now apply dict_set_NoDup.
  - destruct (text_event_frame m ui_t v1 v2 v3 lenb data Htext) as [-> _].
    exact Hnd.
  - now rewrite process_other_event.
Qed.

Lemma NoDup_keys_functional (d : list (Z * Z)) (r s1 s2 : Z) :
  NoDup (map fst d) -> In (r, s1) d -> In (r, s2) d -> s1 = s2.
Proof.
  induction d as [| [k v] d IH]; cbn; intros Hnd H1 H2; [contradiction |].
  apply NoDup_cons in Hnd as [Hnotin Hnd].
  assert (Hkey : forall s, In (r, s) d -> r ∈ map fst d).
  { intros s Hs. apply list_elem_of_In. apply (in_map fst d (r, s)), Hs. }
  destruct H1 as [E1 | H1], H2 as [E2 | H2].
  - congruence.
  - inversion E1; subst. exfalso. eapply Hnotin, Hkey, H2.
  - inversion E2; subst. exfalso. eapply Hnotin, Hkey, H1.
  - now apply IH.
Qed.

(** X16: the cursor dictionary never holds a row twice.  After any
    events on a fresh screen its keys are pairwise distinct, so a row
    has at most one style. *)
Theorem cursor_rows_one_style_per_row (keydown : Z) (evts : list Event) :
  NoDup (map fst (cursor_rows (process_events (Model_init keydown) evts)))
  /\ forall r s1 s2,
       In (r, s1) (cursor_rows (process_events (Model_init keydown) evts)) ->
       In (r, s2) (cursor_rows (process_events (Model_init keydown) evts)) ->
       s1 = s2.
Proof.
  assert (Hnd : NoDup (map fst (cursor_rows (process_events (Model_init keydown) evts)))).
  { unfold process_events. induction evts as [| e evts IH] using rev_ind.
    - cbn. apply NoDup_nil_2.
    - rewrite fold_left_app. cbn [fold_left]. now apply cursor_keys_step. }
  split; [exact Hnd |]. intros r s1 s2. now apply NoDup_keys_functional.
Qed.

(** *** What CLEAR removes *)

Lemma cursor_rows_pop_fold (dead : list Z) :
  forall m : Model,
    cursor_rows
      (fold_left
         (fun m r =>
            let m := delete_tag ("cursor_" +:+ pretty r) m in
            set_cursor_rows (dict_pop (cursor_rows m) r) m)
         dead m)
    = fold_left dict_pop dead (cursor_rows m).
Proof.
  induction dead as [| r dead IH]; intros m; [reflexivity |].
  cbn [fold_left]. now rewrite IH.
Qed.

Lemma buffer_pop_fold (dead : list Z) :
  forall m : Model,
    buffer
      (fold_left
         (fun m r =>
            let m := delete_tag ("cursor_" +:+ pretty r) m in
            set_cursor_rows (dict_pop (cursor_rows m) r) m)
         dead m)
    = fold_left (fun b r => delete ("cursor_" +:+ pretty r) b) dead (buffer m).
Proof.
  induction dead as [| r dead IH]; intros m; [reflexivity |].
  cbn [fold_left]. now rewrite IH.
Qed.

Lemma lookup_fold_delete {A : Type} (f : A -> string) (l : list A) :
  forall (b : gmap string DrawTextCmd) (tag : string),
    fold_left (fun b a => delete (f a) b) l b !! tag
    = if decide (tag ∈ map f l) then None else b !! tag.
Proof.
  induction l as [| a l IH]; intros b tag; cbn [fold_left map].
  - destruct (decide _) as [Hin | _]; [now apply elem_of_nil in Hin | reflexivity].
  - rewrite IH.
    destruct (decide (tag ∈ map f l)) as [Hin | Hnotin].
    + rewrite decide_True by (apply elem_of_cons; now right). reflexivity.
    + destruct (decide (tag = f a)) as [-> | Hne].
      * rewrite decide_True by (apply elem_of_cons; now left).
        apply lookup_delete_eq.
      * rewrite decide_False
          by (rewrite elem_of_cons; intros [? | ?]; contradiction).
        now apply lookup_delete_ne.
Qed.

Lemma pop_fold_cons (dead : list Z) (k v : Z) :
  Forall (fun r => r <> k) dead ->
  forall d, fold_left dict_pop dead ((k, v) :: d)
            = (k, v) :: fold_left dict_pop dead d.
Proof.
  induction 1 as [| r dead Hr Hdead IH]; intros d; [reflexivity |].
  cbn [fold_left dict_pop].
  destruct (Z.eqb_spec k r) as [-> | _]; [contradiction |]. apply IH.
Qed.

(** Popping the keys that satisfy [P], in dictionary order, leaves
    the entries whose key does not. *)
Lemma pop_filter (P : Z -> bool) (d : list (Z * Z)) :
  fold_left dict_pop (List.filter P (map fst d)) d
  = List.filter (fun e => negb (P (fst e))) d.
Proof.
  induction d as [| [k v] d IH]; [reflexivity |].
  cbn [map fst List.filter]. destruct (P k) eqn:Hk; cbn [negb].
  - cbn [fold_left dict_pop]. rewrite Z.eqb_refl. exact IH.
  - rewrite pop_fold_cons; [now rewrite IH |].
    apply List.Forall_forall. intros r Hr. apply filter_In in Hr as [_ Hr].
    intros ->. congruence.
Qed.

Lemma clear_lines_lookup (y1 y2 : Z) (m : Model) (tag : string) (cmd : DrawTextCmd) :
  buffer (clear_lines y1 y2 m) !! tag = Some cmd
  <-> buffer m !! tag = Some cmd /\ between y1 (row cmd) y2 = false.
Proof.
  unfold clear_lines. cbn [buffer set_buffer].
  rewrite (lookup_fold_delete (fun t : string => t)).
  set (kill := map fst (List.filter _ (map_to_list (buffer m)))).
  assert (Hkill : tag ∈ map (fun t : string => t) kill
                  <-> exists c, buffer m !! tag = Some c /\ between y1 (row c) y2 = true).
  { rewrite map_id. unfold kill. rewrite list_elem_of_In, in_map_iff. split.
    - intros ([t c] & <- & Hin). apply filter_In in Hin as [Hin Hrange].
      exists c. split; [| exact Hrange].
      now apply elem_of_map_to_list, list_elem_of_In.
    - intros (c & Hc & Hrange). exists (tag, c). split; [reflexivity |].
      apply filter_In. split; [| exact Hrange].
      now apply list_elem_of_In, elem_of_map_to_list. }
  destruct (decide _) as [Hin | Hnotin].
  - split; [discriminate |]. intros [Hc Hout].
    apply Hkill in Hin as (c & Hc' & Hrange). congruence.
  - split; [| tauto]. intros Hc. split; [exact Hc |].
    destruct (between y1 (row cmd) y2) eqn:Hrange; [| reflexivity].
    exfalso. apply Hnotin, Hkill. eauto.
Qed.

Lemma clear_removes_range_aux (m : Model) (y1 y2 : Z) :
  cursor_rows (clear_cursor_rows y1 y2 (clear_lines y1 y2 m))
  = List.filter (fun e => negb (between y1 (fst e) y2)) (cursor_rows m)
  /\ (forall tag cmd,
        buffer (clear_cursor_rows y1 y2 (clear_lines y1 y2 m)) !! tag = Some cmd ->
        between y1 (row cmd) y2 = false).
Proof.
  unfold clear_cursor_rows. rewrite cursor_rows_pop_fold, buffer_pop_fold.
  change (cursor_rows (clear_lines y1 y2 m)) with (cursor_rows m).
  split; [apply (pop_filter (fun r => between y1 r y2)) |].
  intros tag cmd. rewrite lookup_fold_delete.
  destruct (decide _); [discriminate |]. intros H.
  now apply clear_lines_lookup in H.
Qed.

(** X17: a CLEAR packet for rows y1..y2 removes exactly that range.
    The cursor entries left are those with a row outside it, in their
    old order; every cell left was there before and has a row outside
    it; and a cell with a row outside it stays, unless its tag is the
    cursor tag of a row inside. *)
Theorem clear_removes_the_range (m : Model) (y1 y2 v3 lenb : Z) (data : list Z) :
  let m' := process_event m (EvPacket 5 y1 y2 v3 lenb data) in
  cursor_rows m'
  = List.filter (fun e => negb (between y1 (fst e) y2)) (cursor_rows m)
  /\ (forall tag cmd,
        buffer m' !! tag = Some cmd ->
        buffer m !! tag = Some cmd /\ between y1 (row cmd) y2 = false)
  /\ (forall tag cmd,
        buffer m !! tag = Some cmd ->
        between y1 (row cmd) y2 = false ->
        (forall r, between y1 r y2 = true -> tag <> "cursor_" +:+ pretty r) ->
        buffer m' !! tag = Some cmd).
Proof.
  cbn zeta. rewrite process_clear_event. unfold clear_cursor_rows.
  rewrite cursor_rows_pop_fold, buffer_pop_fold.
  change (cursor_rows (clear_lines y1 y2 m)) with (cursor_rows m).
  split; [apply (pop_filter (fun r => between y1 r y2)) |].
  split.
  - intros tag cmd. rewrite lookup_fold_delete.
    destruct (decide _); [discriminate |]. apply clear_lines_lookup.
  - intros tag cmd Hcmd Hout Htag. rewrite lookup_fold_delete.
    rewrite decide_False; [now apply clear_lines_lookup |].
    rewrite list_elem_of_In, in_map_iff. intros (r & Hr & Hin).
    apply filter_In in Hin as [_ Hrange]. now apply (Htag r).
Qed.

(** *** A repeated event *)

Lemma set_buffer_id (m : Model) : set_buffer (buffer m) m = m.
Proof. now destruct m. Qed.

Lemma filter_none {A : Type} (f : A -> bool) (l : list A) :
  (forall a, In a l -> f a = false) -> List.filter f l = [].
Proof.
  induction l as [| a l IH]; intros H; [reflexivity |].
  cbn. rewrite (H a) by now left. apply IH. intros a' Ha'. apply H. now right.
Qed.

Lemma dict_set_idem (d : list (Z * Z)) (k v : Z) :
  dict_set (dict_set d k v) k v = dict_set d k v.
Proof.
  induction d as [| [k' v'] d IH]; cbn.
  - now rewrite Z.eqb_refl.
  - destruct (Z.eqb_spec k' k) as [-> | Hne]; cbn.
    + now rewrite Z.eqb_refl.
    + destruct (Z.eqb_spec k' k); [contradiction |]. now rewrite IH.
Qed.

Lemma draw_text_idem (cmd : DrawTextCmd) (tag : string) (m : Model) :
  draw_text cmd tag (draw_text cmd tag m) = draw_text cmd tag m.
Proof.
  unfold draw_text, set_buffer. cbn. now rewrite insert_insert_eq.
Qed.

Lemma derive_vfo_ext (m1 m2 : Model) :
  cursor_rows m1 = cursor_rows m2 ->
  last_cursor_row m1 = last_cursor_row m2 ->
  vfo_state (derive_vfo_from_cursors m1) = vfo_state (derive_vfo_from_cursors m2).
Proof.
  intros Hc Hl. unfold derive_vfo_from_cursors. rewrite Hc, Hl.
  destruct (map fst _); [destruct (last_cursor_row m2) |]; reflexivity.
Qed.

Lemma derive_vfo_eq (m : Model) :
  derive_vfo_from_cursors m
  = set_vfo_state (vfo_state (derive_vfo_from_cursors m)) m.
Proof. destruct (derive_vfo_sets_vfo m) as [w Hw]. now rewrite Hw. Qed.

Lemma clear_event_idem (m : Model) (y1 y2 : Z) :
  clear_cursor_rows y1 y2
    (clear_lines y1 y2 (clear_cursor_rows y1 y2 (clear_lines y1 y2 m)))
  = clear_cursor_rows y1 y2 (clear_lines y1 y2 m).
Proof.
  pose proof (clear_removes_range_aux m y1 y2) as [Hrows Hcells].
  set (m' := clear_cursor_rows y1 y2 (clear_lines y1 y2 m)) in *.
  assert (Hlines : clear_lines y1 y2 m' = m').
  { unfold clear_lines. rewrite filter_none; [apply set_buffer_id |].
    intros [tag cmd] Hin. cbn [snd].
    apply list_elem_of_In, elem_of_map_to_list in Hin. now apply Hcells in Hin. }
  rewrite Hlines. unfold clear_cursor_rows at 1.
  rewrite filter_none; [reflexivity |].
  intros r Hr. rewrite Hrows in Hr. apply in_map_iff in Hr as ([k v] & <- & Hin).
  apply filter_In in Hin as [_ Hout]. cbn [fst] in *.
  now apply negb_true_iff in Hout.
Qed.

(** X18: every event is idempotent.  Processing the same event a
    second time right after the first changes nothing: a duplicated
    packet redraws the same cell, keeps the same cursor entry, clears
    what is already clear, and prints no second frequency line. *)
Theorem repeated_event_changes_nothing (m : Model) (e : Event) :
  process_event (process_event m e) e = process_event m e.
Proof.
  destruct e as [msg | ui_t v1 v2 v3 lenb data]; [reflexivity |].
  destruct (kind_cases ui_t) as [-> | [-> | [-> | [Htext | Hother]]]].
  - rewrite !process_clear_event. apply clear_event_idem.
  - rewrite !process_status_event.
    rewrite (derive_vfo_eq (set_status _ _)).
    rewrite (derive_vfo_ext (set_status _ (derive_vfo_from_cursors m)) m)
      by apply derive_vfo_frame.
    rewrite (derive_vfo_eq m). reflexivity.
  - rewrite !process_cursor_event. unfold draw_text, set_buffer. cbn.
    now rewrite insert_insert_eq, dict_set_idem.
  - rewrite (process_text_event (process_event m _)) by exact Htext.
    rewrite (process_text_event m) by exact Htext. cbn zeta.
    set (cmd := {| x := _; row := _; scale := _; text := _ |}).
    set (tag := "cell_" +:+ _).
    set (row := text_row v1 v2). set (text := decode_ascii_replace data).
    destruct ((ui_t =? 3) && looks_like_freq text) eqn:Hc.
    + assert (Hmem : last_freq_by_row
                       (draw_text cmd tag
                          (if bool_decide (last_freq_by_row m !! row = Some text)
                           then m
                           else print (freq_line row text)
                                  (set_last_freq_by_row
                                     (<[row := text]> (last_freq_by_row m)) m)))
                     !! row = Some text).
      { case_bool_decide as Hm; cbn; [exact Hm | apply lookup_insert_eq]. }
      rewrite (bool_decide_eq_true_2 _ Hmem). apply draw_text_idem.
    + apply draw_text_idem.
  - now rewrite !process_other_event.
Qed.

(** *** Frequency-like texts, read off the raw bytes *)

Lemma chars_append (a b : string) :
  list_ascii_of_string (a +:+ b) = list_ascii_of_string a ++ list_ascii_of_string b.
Proof.
  induction a as [| c a IH]; [reflexivity |].
  change (list_ascii_of_string (String c a +:+ b))
    with (c :: list_ascii_of_string (a +:+ b)).
  rewrite IH. reflexivity.
Qed.

Lemma chars_concat (l : list string) :
  list_ascii_of_string (String.concat "" l) = flat_map list_ascii_of_string l.
Proof.
  induction l as [| s l IH]; [reflexivity |].
  cbn [flat_map]. rewrite <- IH. destruct l as [| s' l].
  - cbn. now rewrite app_nil_r.
  - cbn [String.concat]. rewrite chars_append. reflexivity.
Qed.

Lemma existsb_flat_map {A B : Type} (f : B -> bool) (g : A -> list B) (l : list A) :
  existsb f (flat_map g l) = existsb (fun a => existsb f (g a)) l.
Proof.
  induction l as [| a l IH]; [reflexivity |].
  cbn. now rewrite existsb_app, IH.
Qed.

Lemma existsb_ext_bytes (f g : Z -> bool) (data : list Z) :
  (forall b, 0 <= b <= 255 -> f b = g b) ->
  Forall is_byte data -> existsb f data = existsb g data.
Proof.
  intros Hfg. induction 1 as [| b data Hb Hdata IH]; [reflexivity |].
  cbn. rewrite IH, Hfg by (unfold is_byte in Hb; lia). reflexivity.
Qed.

(** Byte by byte: which decoded bytes give a ["."], which a digit. *)
Lemma decoded_byte_chars (b : Z) :
  0 <= b <= 255 ->
  existsb (Ascii.eqb ".")
    (list_ascii_of_string
       (if b <? 128 then String (ascii_of_N (Z.to_N b)) EmptyString else "�"))
  = (b =? 46)
  /\ existsb isdigit
       (list_ascii_of_string
          (if b <? 128 then String (ascii_of_N (Z.to_N b)) EmptyString else "�"))
     = (48 <=? b) && (b <=? 57).
Proof.
  revert b. apply byte_cases.
  repeat (apply Forall_cons_2; [split; vm_compute; reflexivity |]).
  apply Forall_nil_2.
Qed.

(** X19: whether a packet's text looks like a frequency can be read
    off its raw bytes: it does exactly when the data holds the byte 2E
    (".") and a byte from 30 to 39 (an ASCII digit).  Bytes above 7F,
    which decoding replaces, never count as either. *)
Theorem looks_like_freq_on_bytes (data : list Z) :
  Forall is_byte data ->
  looks_like_freq (decode_ascii_replace data)
  = existsb (Z.eqb 46) data
    && existsb (fun b => (48 <=? b) && (b <=? 57)) data.
Proof.
  intros Hd. unfold looks_like_freq, decode_ascii_replace.
  rewrite chars_concat, flat_map_concat_map, map_map, <- flat_map_concat_map.
  rewrite !existsb_flat_map. f_equal.
  - rewrite (existsb_ext_bytes _ (fun b => b =? 46) data); [| | exact Hd].
    + apply existsb_ext_bytes; [| exact Hd]. intros b _. apply Z.eqb_sym.
    + intros b Hb. apply decoded_byte_chars, Hb.
  - apply existsb_ext_bytes; [| exact Hd].
    intros b Hb. apply decoded_byte_chars, Hb.
Qed.

Lemma looks_like_freq_on_bytes_witness :
  looks_like_freq (decode_ascii_replace [0x34; 0x2E; 0xB0; 0x35]) = true.
Proof.
  refine (eq_trans (looks_like_freq_on_bytes [0x34; 0x2E; 0xB0; 0x35] _) _).
  - unfold is_byte. repeat constructor; lia.
  - reflexivity.
Defined.

End ScreenModelMore.

(** ** The encoder, the parser and the screen together *)

Section PipelineFacts.
Import CipherFrame StreamParser ScreenModel Pipeline.

(** X13: a frame written by [send_command] has the shape the parser
    skips.  Fed to a parser in [IDLE], the bytes written for a u16
    command and a byte payload of at most 65531 bytes emit nothing and
    leave the parser in [IDLE]. *)
Theorem written_frame_is_skipped_by_parser
    (c : Z) (p : list Z) (self : Parser) (q : list RawUiPacket) :
  0 <= c < 65536 ->
  Forall is_byte p ->
  Z.of_nat (length p) <= 65531 ->
  stage self = IDLE ->
  exists frame,
    send_command {| written := [] |} c p = Ok {| written := frame |}
    /\ snd (feed_chunk (self, q) frame) = q
    /\ stage (fst (feed_chunk (self, q) frame)) = IDLE.
Proof.
  intros Hc Hp Hlen Hidle. exists (wire_frame c p).
  split; [now rewrite send_command_ok |].
  set (n := Z.of_nat (length p)) in *.
  assert (Hshape :
    wire_frame c p
    = [0xAB; 0xCD; (4 + n) mod 256; (4 + n) / 256]
        ++ xor_with_key (plain_record c p)
        ++ [crypt (crc16_plain (plain_record c p) 0 mod 256)
              (Z.of_nat (length (plain_record c p)));
            crypt (crc16_plain (plain_record c p) 0 / 256)
              (Z.of_nat (length (plain_record c p)) + 1);
            0xDC; 0xBA]).
  { unfold wire_frame, le16. cbv zeta. fold n.
    rewrite xor_with_key_snoc2, <- app_assoc. reflexivity. }
  rewrite Hshape.
  assert (Hreclen : length (xor_with_key (plain_record c p)) = (4 + length p)%nat).
  { unfold xor_with_key, plain_record, le16. rewrite length_imap. reflexivity. }
  destruct (ack_frame_skipped self q ((4 + n) mod 256) ((4 + n) / 256)
              (crypt (crc16_plain (plain_record c p) 0 mod 256)
                 (Z.of_nat (length (plain_record c p))))
              (crypt (crc16_plain (plain_record c p) 0 / 256)
                 (Z.of_nat (length (plain_record c p)) + 1))
              0xBA (xor_with_key (plain_record c p)) Hidle)
    as (self' & -> & Hst).
  - unfold is_byte. apply Z.mod_pos_bound. lia.
  - apply Z.div_pos; lia.
  - intros Hnil. rewrite Hnil in Hreclen. discriminate.
  - rewrite Hreclen. pose proof (Z.div_mod (4 + n) 256 ltac:(lia)). lia.
  - now split.
Qed.

Lemma written_frame_is_skipped_by_parser_witness :
  exists frame,
    send_command {| written := [] |} PKT_KEYPRESS [0x2A; 0] = Ok {| written := frame |}
    /\ snd (feed_chunk Reader_init frame) = []
    /\ stage (fst (feed_chunk Reader_init frame)) = IDLE.
Proof.
  apply (written_frame_is_skipped_by_parser PKT_KEYPRESS [0x2A; 0] Parser_init []).
  - unfold PKT_KEYPRESS. lia.
  - unfold is_byte. repeat constructor; lia.
  - cbn. lia.
  - reflexivity.
Defined.

(** X20: from the wire to the status line.  The bytes of a CURSOR
    packet for a row, with no data, followed by those of a STATUS
    packet, fed to a fresh parser and processed on a fresh screen, give
    the VFO of that row ("A" below row 4, "B" from row 4 on) whatever
    the cursor style, and a status line with that VFO, the two flag
    bytes and the battery sample of the length byte. *)
Theorem cursor_then_status_on_the_wire
    (keydown r st c3 f1 f2 s3 L : Z) :
  let m := screen_after keydown
             ([0xB5; 7; r; st; c3; 0] ++ [0xB5; 6; f1; f2; s3; L]) in
  vfo_state m = (if r <? 4 then "A"%string else "B"%string)
  /\ status_var m
     = StatusLine (if r <? 4 then "A"%string else "B"%string) f1 f2
         (fst (decode_battery L)) (snd (decode_battery L)) keydown
  /\ cursor_rows m = [(r, st)]
  /\ last_cursor_row m = Some r.
Proof.
  cbn zeta. unfold screen_after.
  assert (Hparse :
    snd (feed_chunk Reader_init ([0xB5; 7; r; st; c3; 0] ++ [0xB5; 6; f1; f2; s3; L]))
    = [{| kind := 7; pkt_v1 := r; pkt_v2 := st; pkt_v3 := c3;
          declaredLen := 0; data := [] |};
       {| kind := 6; pkt_v1 := f1; pkt_v2 := f2; pkt_v3 := s3;
          declaredLen := L; data := [] |}])
    by (vm_compute; reflexivity).
  rewrite Hparse. unfold process_events, on_ui_packet.
  cbn [map fold_left kind pkt_v1 pkt_v2 pkt_v3 declaredLen data].
  rewrite process_status_event, process_cursor_event.
  set (m1 := draw_text _ _ _).
  assert (Hvfo : vfo_state (derive_vfo_from_cursors m1)
                 = (if r <? 4 then "A"%string else "B"%string)).
  { unfold derive_vfo_from_cursors, m1. cbn.
    destruct (st =? 0); reflexivity. }
  cbn [vfo_state status_var cursor_rows last_cursor_row set_status].
  rewrite Hvfo. destruct (derive_vfo_frame m1) as (_ & -> & -> & _ & _ & -> & _).
  repeat split.
Qed.

End PipelineFacts.
